(** * GrADS control-file parser (nwpc_data/format/grads/grads_ctl.py)

    A shallow embedding of [GradsCtl] and [GradsCtlParser] and the properties
    of the keyword dispatcher, the dimension and time-axis decoders, the
    variable catalogue, the record index builder and the file-name
    heuristic.

    Conventions.
    - A Python [str] is a [string]; its characters are the code points below
      256.  Python [int] is [Z]; Python [float] is the kernel's binary64
      [float].
    - A method that can raise returns a [result]; methods of the parser
      object, which mutate [self], take the parser state and return the new
      one.
    - The built-in [float()] is a parameter of the development
      ([Section Parser]); every theorem holds for every such function. *)

From Stdlib Require Import ZArith List String Ascii Bool Lia Floats Sorted.
Import ListNotations.

#[local] Open Scope string_scope.
#[local] Open Scope Z_scope.

(** ** Exceptions and the result monad *)

Inductive exn : Type :=
| IndexError
| KeyError (key : string)
| TypeError
| ValueError
| AssertionError
| OverflowError
| OutOfBoundsDatetime
| Exception (msg : string).

Inductive result (A : Type) : Type :=
| Ok (a : A)
| Raise (e : exn).
Arguments Ok {A} a.
Arguments Raise {A} e.

Definition bind {A B} (m : result A) (k : A -> result B) : result B :=
  match m with
  | Ok a => k a
  | Raise e => Raise e
  end.

Declare Scope py_scope.
Delimit Scope py_scope with py.
Notation "x <- m ;; k" := (bind m (fun x => k))
  (at level 61, m at next level, right associativity) : py_scope.
Notation "m ;;; k" := (bind m (fun _ => k))
  (at level 61, right associativity) : py_scope.
#[local] Open Scope py_scope.

Definition of_option {A} (e : exn) (o : option A) : result A :=
  match o with
  | Some a => Ok a
  | None => Raise e
  end.

(** [assert b] *)
Definition py_assert (b : bool) : result unit :=
  if b then Ok tt else Raise AssertionError.

Definition is_ok {A} (r : result A) : bool :=
  match r with
  | Ok _ => true
  | Raise _ => false
  end.

(** [[f(x) for x in l]] where [f] can raise: the first failure aborts. *)
Fixpoint mapM {A B} (f : A -> result B) (l : list A) : result (list B) :=
  match l with
  | [] => Ok []
  | x :: l' => y <- f x ;; ys <- mapM f l' ;; Ok (y :: ys)
  end.

(** ** Python built-ins on [str], [list] and [int] *)

Module Py.

(** [str.isspace] on one character: the ASCII white space, the separators
    U+001C..U+001F, U+0085 and U+00A0. *)
Definition is_space (c : ascii) : bool :=
  let n := Z.of_nat (nat_of_ascii c) in
  ((9 <=? n) && (n <=? 13)) || ((28 <=? n) && (n <=? 32))
  || (n =? 133) || (n =? 160).

Definition lower_char (c : ascii) : ascii :=
  let n := Z.of_nat (nat_of_ascii c) in
  if ((65 <=? n) && (n <=? 90))
     || ((192 <=? n) && (n <=? 222) && negb (n =? 215))
  then ascii_of_nat (Z.to_nat (n + 32))
  else c.

(** [s.lower()] *)
Fixpoint lower (s : string) : string :=
  match s with
  | EmptyString => EmptyString
  | String c s' => String (lower_char c) (lower s')
  end.

Definition len (s : string) : Z := Z.of_nat (String.length s).

(** [s.find(c)] for a one-character needle: the first index, or -1. *)
Fixpoint find_char (c : ascii) (s : string) : Z :=
  match s with
  | EmptyString => -1
  | String d s' =>
      if Ascii.eqb d c then 0
      else let k := find_char c s' in if k <? 0 then -1 else k + 1
  end.

Fixpoint take (n : nat) (s : string) : string :=
  match n, s with
  | S n', String c s' => String c (take n' s')
  | _, _ => EmptyString
  end.

Fixpoint drop (n : nat) (s : string) : string :=
  match n, s with
  | S n', String _ s' => drop n' s'
  | _, _ => s
  end.

(** A slice bound, clamped the way Python clamps it. *)
Definition clamp (s : string) (k : Z) : nat :=
  Z.to_nat (Z.min (len s) (if k <? 0 then Z.max 0 (len s + k) else k)).

(** [s[i:j]], [s[:j]] and [s[i:]] *)
Definition slice (s : string) (i j : Z) : string :=
  let a := clamp s i in
  let b := clamp s j in
  take (b - a) (drop a s).
Definition slice_to (s : string) (j : Z) : string := slice s 0 j.
Definition slice_from (s : string) (i : Z) : string := drop (clamp s i) s.

(** [s[i]] *)
Definition str_get (s : string) (i : Z) : result ascii :=
  let j := if i <? 0 then i + len s else i in
  if (0 <=? j) && (j <? len s)
  then of_option IndexError (String.get (Z.to_nat j) s)
  else Raise IndexError.

(** [l[i]] *)
Definition list_get {A} (l : list A) (i : Z) : result A :=
  let n := Z.of_nat (List.length l) in
  let j := if i <? 0 then i + n else i in
  if (0 <=? j) && (j <? n)
  then of_option IndexError (nth_error l (Z.to_nat j))
  else Raise IndexError.

(** [l[i:]] for [0 <= i] *)
Definition list_from {A} (l : list A) (i : nat) : list A := skipn i l.

Fixpoint lstrip (s : string) : string :=
  match s with
  | EmptyString => EmptyString
  | String c s' => if is_space c then lstrip s' else s
  end.

Fixpoint rstrip (s : string) : string :=
  match s with
  | EmptyString => EmptyString
  | String c s' =>
      match rstrip s' with
      | EmptyString => if is_space c then EmptyString else String c EmptyString
      | r => String c r
      end
  end.

(** [s.strip()] *)
Definition strip (s : string) : string := rstrip (lstrip s).

(** [s.split()]: the maximal runs of characters that are not white space. *)
Fixpoint split (s : string) : list string :=
  match s with
  | EmptyString => []
  | String c s' =>
      if is_space c then split s'
      else
        match s' with
        | EmptyString => [String c EmptyString]
        | String c' _ =>
            if is_space c' then String c EmptyString :: split s'
            else
              match split s' with
              | w :: ws => String c w :: ws
              | [] => [String c EmptyString]
              end
        end
  end.

(** [s.split(sep)] for a one-character separator: empty pieces are kept. *)
Fixpoint split_on (sep : ascii) (s : string) : list string :=
  match s with
  | EmptyString => [EmptyString]
  | String c s' =>
      if Ascii.eqb c sep then EmptyString :: split_on sep s'
      else
        match split_on sep s' with
        | w :: ws => String c w :: ws
        | [] => [String c EmptyString]
        end
  end.

(** [sep.join(l)] *)
Definition join (sep : string) (l : list string) : string :=
  String.concat sep l.

(** [s.startswith(p)] *)
Definition startswith (s p : string) : bool := String.prefix p s.

Definition digit_val (c : ascii) : option Z :=
  let n := Z.of_nat (nat_of_ascii c) in
  if (48 <=? n) && (n <=? 57) then Some (n - 48) else None.

Definition is_digit (c : ascii) : bool :=
  match digit_val c with
  | Some _ => true
  | None => false
  end.

(** The digits of an [int()] literal: single underscores may separate
    digits. *)
Fixpoint int_digits (s : string) (acc : Z) (after_digit : bool) : option Z :=
  match s with
  | EmptyString => if after_digit then Some acc else None
  | String c s' =>
      match digit_val c with
      | Some d => int_digits s' (acc * 10 + d) true
      | None =>
          if Ascii.eqb c "_" && after_digit then int_digits s' acc false
          else None
      end
  end.

(** [int(s)] in base ten: surrounding white space, an optional sign, the
    digits.  [None] is [ValueError]. *)
Definition int (s : string) : result Z :=
  of_option ValueError
    match strip s with
    | String "-" d => option_map Z.opp (int_digits d 0 false)
    | String "+" d => int_digits d 0 false
    | d => int_digits d 0 false
    end.

(** [range(n)] and [range(0, n)] *)
Definition range (n : Z) : list Z :=
  List.map Z.of_nat (seq 0 (Z.to_nat n)).

(** [re.match(r"[0-9]{n}", s)]: [s] begins with [n] ASCII digits; the rest
    of [s] after them, when it does. *)
Fixpoint match_digits (n : nat) (s : string) : option string :=
  match n with
  | O => Some s
  | S n' =>
      match s with
      | String c s' => if is_digit c then match_digits n' s' else None
      | EmptyString => None
      end
  end.

End Py.

(** ** pathlib: the parts of [Path] the parser uses

    A path is kept as its string.  [Path] drops empty and [.] components. *)

Module Path.

Definition parts (p : string) : list string :=
  List.filter (fun c => negb (String.eqb c "") && negb (String.eqb c "."))
    (Py.split_on "/" p).

(** The root of a POSIX path: [/] for one leading slash and for three or
    more, [//] for exactly two, none for a relative path. *)
Definition root (p : string) : string :=
  match p with
  | String "/" (String "/" (String "/" _)) => "/"
  | String "/" (String "/" _) => "//"
  | String "/" _ => "/"
  | _ => ""
  end.

Definition is_absolute (p : string) : bool := Py.startswith p "/".

(** [str] of the path with the root [r] and the components [cs]. *)
Definition of_parts (r : string) (cs : list string) : string :=
  match r, cs with
  | EmptyString, [] => "."
  | _, _ => String.append r (Py.join "/" cs)
  end.

(** [Path(p).name] *)
Definition name (p : string) : string := List.last (parts p) "".

(** [Path(p).parent] *)
Definition parent (p : string) : string :=
  of_parts (root p) (List.removelast (parts p)).

(** [Path(d, r)]: an absolute [r] replaces [d]. *)
Definition join (d r : string) : string :=
  if is_absolute r then of_parts (root r) (parts r)
  else of_parts (root d) (parts d ++ parts r)%list.

End Path.

(** ** pandas: [Timestamp], [Timedelta] and [to_datetime]

    Both types are counts of nanoseconds in a signed 64-bit integer, the
    least value being reserved for [NaT]; [Timestamp] counts from
    1970-01-01T00:00.  Arithmetic that leaves the range raises. *)

Module Pd.

Definition Timestamp : Type := Z.
Definition Timedelta : Type := Z.

Definition int64_max : Z := 2 ^ 63 - 1.

Definition in_bounds (ns : Z) : bool :=
  (- int64_max <=? ns) && (ns <=? int64_max).

Definition ns_per_minute : Z := 60 * 10 ^ 9.
Definition ns_per_hour : Z := 60 * ns_per_minute.
Definition ns_per_day : Z := 24 * ns_per_hour.

Definition timedelta (unit_ns v : Z) : result Timedelta :=
  if in_bounds (v * unit_ns) then Ok (v * unit_ns) else Raise OverflowError.

(** [pd.Timedelta(minutes=v)], [pd.Timedelta(hours=v)],
    [pd.Timedelta(days=v)] *)
Definition minutes (v : Z) : result Timedelta := timedelta ns_per_minute v.
Definition hours (v : Z) : result Timedelta := timedelta ns_per_hour v.
Definition days (v : Z) : result Timedelta := timedelta ns_per_day v.

(** [step * i] for an [int] [i] *)
Definition td_mul (step : Timedelta) (i : Z) : result Timedelta :=
  if in_bounds (step * i) then Ok (step * i) else Raise OverflowError.

(** [start + delta] *)
Definition ts_add (start : Timestamp) (delta : Timedelta) : result Timestamp :=
  if in_bounds (start + delta) then Ok (start + delta)
  else Raise OutOfBoundsDatetime.

Definition is_leap (y : Z) : bool :=
  ((y mod 4 =? 0) && negb (y mod 100 =? 0)) || (y mod 400 =? 0).

Definition days_in_month (y m : Z) : Z :=
  if m =? 2 then (if is_leap y then 29 else 28)
  else if (m =? 4) || (m =? 6) || (m =? 9) || (m =? 11) then 30
  else 31.

(** Days from 1970-01-01 to the given date of the proleptic Gregorian
    calendar. *)
Definition days_from_civil (y m d : Z) : Z :=
  let y' := if m <=? 2 then y - 1 else y in
  let era := y' / 400 in
  let yoe := y' - era * 400 in
  let doy := (153 * (if 2 <? m then m - 3 else m + 9) + 2) / 5 + d - 1 in
  let doe := yoe * 365 + yoe / 4 - yoe / 100 + doy in
  era * 146097 + doe - 719468.

(** The timestamp of year, month, day and hour fields that matched the
    format: the date must exist and lie in the range of [Timestamp]. *)
Definition of_fields (y m d h : Z) : result Timestamp :=
  if (1 <=? y) && (1 <=? d) && (d <=? days_in_month y m) then
    let ns := days_from_civil y m d * ns_per_day + h * ns_per_hour in
    if in_bounds ns then Ok ns else Raise OutOfBoundsDatetime
  else Raise ValueError.

Definition two_digits (a b : ascii) : option Z :=
  match Py.digit_val a, Py.digit_val b with
  | Some x, Some y => Some (10 * x + y)
  | _, _ => None
  end.

Definition in_range (lo hi : Z) (o : option Z) : option Z :=
  match o with
  | Some v => if (lo <=? v) && (v <=? hi) then Some v else None
  | None => None
  end.

(** The directives at their full width: [%H] is [2[0-3]|[0-1]\d], [%d] is
    [3[0-1]|[1-2]\d|0[1-9]| [1-9]], [%m] is [1[0-2]|0[1-9]], [%Y] is four
    digits, [%b] is a month abbreviation of the C locale in any letter
    case. *)
Definition field_H (a b : ascii) : option Z := in_range 0 23 (two_digits a b).

Definition field_d (a b : ascii) : option Z :=
  if Ascii.eqb a " " then in_range 1 9 (Py.digit_val b)
  else in_range 1 31 (two_digits a b).

Definition field_m (a b : ascii) : option Z := in_range 1 12 (two_digits a b).

Definition field_Y (a b c d : ascii) : option Z :=
  match two_digits a b, two_digits c d with
  | Some x, Some y => Some (100 * x + y)
  | _, _ => None
  end.

Definition month_abbr : list string :=
  ["jan"; "feb"; "mar"; "apr"; "may"; "jun";
   "jul"; "aug"; "sep"; "oct"; "nov"; "dec"].

Fixpoint index_of (x : string) (l : list string) (i : Z) : option Z :=
  match l with
  | [] => None
  | y :: l' => if String.eqb x y then Some i else index_of x l' (i + 1)
  end.

Definition field_b (a b c : ascii) : option Z :=
  index_of (Py.lower (String a (String b (String c EmptyString)))) month_abbr 1.

Definition fields (y m d h : option Z) : result Timestamp :=
  match y, m, d, h with
  | Some y, Some m, Some d, Some h => of_fields y m d h
  | _, _, _, _ => Raise ValueError
  end.

(** [pd.to_datetime(s, format='%Hz%d%b%Y')] on a string of twelve
    characters, which is what [_parse_start_time] passes: every directive
    then stands at its full width.  The literal [z] matches in either
    case. *)
Definition to_datetime_HzdbY (s : string) : result Timestamp :=
  match s with
  | String h1 (String h2 (String z (String d1 (String d2 (String b1 (String b2
      (String b3 (String y1 (String y2 (String y3 (String y4 EmptyString)))))))))))
    =>
      if Ascii.eqb (Py.lower_char z) "z"
      then fields (field_Y y1 y2 y3 y4) (field_b b1 b2 b3) (field_d d1 d2)
             (field_H h1 h2)
      else Raise ValueError
  | _ => Raise ValueError
  end.

(** [pd.to_datetime(s, format="%Y%m%d%H")] on a string of ten characters,
    which is what [_parse_ctl_file_name] passes. *)
Definition to_datetime_YmdH (s : string) : result Timestamp :=
  match s with
  | String y1 (String y2 (String y3 (String y4 (String m1 (String m2 (String d1
      (String d2 (String h1 (String h2 EmptyString)))))))))
    =>
      fields (field_Y y1 y2 y3 y4) (field_m m1 m2) (field_d d1 d2)
        (field_H h1 h2)
  | _ => Raise ValueError
  end.

End Pd.

(** ** The descriptor document: [class GradsCtl] *)

(** The dictionary stored by [_parse_linear_dimension] (with [start] and
    [step]) or by [_parse_levels_dimension]. *)
Inductive Dimension : Type :=
| LinearDim (count : Z) (start step : float) (values : list float)
| LevelsDim (count : Z) (values : list float).

Definition dim_count (d : Dimension) : Z :=
  match d with
  | LinearDim c _ _ _ => c
  | LevelsDim c _ => c
  end.

(** [d["values"]] *)
Definition dim_values (d : Dimension) : list float :=
  match d with
  | LinearDim _ _ _ vs => vs
  | LevelsDim _ vs => vs
  end.

(** The dictionary stored by [_parse_tdef]; its [type] is always
    [linear]. *)
Record TimeAxis : Type := {
  t_count : Z;
  t_start : Pd.Timestamp;
  t_step : Pd.Timedelta;
  t_values : list Pd.Timestamp
}.

(** One entry of [vars]. *)
Record Var : Type := {
  v_name : string;
  v_levels : Z;
  v_units : string;
  v_description : string
}.

Inductive LevelType : Type := single | multi.

(** The value under [level]: the [int] 0 of a single-level entry or the
    [float] read from [zdef]. *)
Inductive Level : Type :=
| LevelInt (z : Z)
| LevelFloat (f : float).

(** One entry of [record]. *)
Record RecordEntry : Type := {
  r_name : string;
  r_level_type : LevelType;
  r_level : Level;
  r_level_index : Z;
  r_valid_time : Pd.Timestamp;
  r_units : string;
  r_description : string;
  r_record_index : Z
}.

(** [dset] holds the raw [str] or the [Path] resolved against the directory
    of the descriptor. *)
Inductive Dset : Type :=
| DsetStr (s : string)
| DsetPath (p : string).

(** [yrev] starts as the [int] 0 and is set to [True]: a [bool] here.
    [attrs] holds what [setattr] stores under a name other than [xdef],
    [ydef] and [zdef]. *)
Record GradsCtl : Type := {
  dset : option Dset;
  title : string;
  options : list string;
  data_endian : string;
  local_endian : string;
  yrev : bool;
  undef : option float;
  start_time : option Pd.Timestamp;
  forecast_time : option Pd.Timedelta;
  xdef : option Dimension;
  ydef : option Dimension;
  zdef : option Dimension;
  tdef : option TimeAxis;
  vars : list Var;
  record : list RecordEntry;
  attrs : list (string * Dimension)
}.

(** [GradsCtl()]; [byteorder] is [sys.byteorder]. *)
Definition GradsCtl_new (byteorder : string) : GradsCtl := {|
  dset := None;
  title := "";
  options := [];
  data_endian := "little";
  local_endian := byteorder;
  yrev := false;
  undef := None;
  start_time := None;
  forecast_time := None;
  xdef := None;
  ydef := None;
  zdef := None;
  tdef := None;
  vars := [];
  record := [];
  attrs := []
|}.

Definition set_dset (v : option Dset) (g : GradsCtl) : GradsCtl :=
  {| dset := v; title := title g; options := options g;
     data_endian := data_endian g; local_endian := local_endian g;
     yrev := yrev g; undef := undef g; start_time := start_time g;
     forecast_time := forecast_time g; xdef := xdef g; ydef := ydef g;
     zdef := zdef g; tdef := tdef g; vars := vars g; record := record g;
     attrs := attrs g |}.

Definition set_title (v : string) (g : GradsCtl) : GradsCtl :=
  {| dset := dset g; title := v; options := options g;
     data_endian := data_endian g; local_endian := local_endian g;
     yrev := yrev g; undef := undef g; start_time := start_time g;
     forecast_time := forecast_time g; xdef := xdef g; ydef := ydef g;
     zdef := zdef g; tdef := tdef g; vars := vars g; record := record g;
     attrs := attrs g |}.

Definition set_options (v : list string) (g : GradsCtl) : GradsCtl :=
  {| dset := dset g; title := title g; options := v;
     data_endian := data_endian g; local_endian := local_endian g;
     yrev := yrev g; undef := undef g; start_time := start_time g;
     forecast_time := forecast_time g; xdef := xdef g; ydef := ydef g;
     zdef := zdef g; tdef := tdef g; vars := vars g; record := record g;
     attrs := attrs g |}.

Definition set_data_endian (v : string) (g : GradsCtl) : GradsCtl :=
  {| dset := dset g; title := title g; options := options g;
     data_endian := v; local_endian := local_endian g;
     yrev := yrev g; undef := undef g; start_time := start_time g;
     forecast_time := forecast_time g; xdef := xdef g; ydef := ydef g;
     zdef := zdef g; tdef := tdef g; vars := vars g; record := record g;
     attrs := attrs g |}.

Definition set_yrev (v : bool) (g : GradsCtl) : GradsCtl :=
  {| dset := dset g; title := title g; options := options g;
     data_endian := data_endian g; local_endian := local_endian g;
     yrev := v; undef := undef g; start_time := start_time g;
     forecast_time := forecast_time g; xdef := xdef g; ydef := ydef g;
     zdef := zdef g; tdef := tdef g; vars := vars g; record := record g;
     attrs := attrs g |}.

Definition set_undef (v : option float) (g : GradsCtl) : GradsCtl :=
  {| dset := dset g; title := title g; options := options g;
     data_endian := data_endian g; local_endian := local_endian g;
     yrev := yrev g; undef := v; start_time := start_time g;
     forecast_time := forecast_time g; xdef := xdef g; ydef := ydef g;
     zdef := zdef g; tdef := tdef g; vars := vars g; record := record g;
     attrs := attrs g |}.

Definition set_start_time (v : option Pd.Timestamp) (g : GradsCtl)
  : GradsCtl :=
  {| dset := dset g; title := title g; options := options g;
     data_endian := data_endian g; local_endian := local_endian g;
     yrev := yrev g; undef := undef g; start_time := v;
     forecast_time := forecast_time g; xdef := xdef g; ydef := ydef g;
     zdef := zdef g; tdef := tdef g; vars := vars g; record := record g;
     attrs := attrs g |}.

Definition set_forecast_time (v : option Pd.Timedelta) (g : GradsCtl)
  : GradsCtl :=
  {| dset := dset g; title := title g; options := options g;
     data_endian := data_endian g; local_endian := local_endian g;
     yrev := yrev g; undef := undef g; start_time := start_time g;
     forecast_time := v; xdef := xdef g; ydef := ydef g;
     zdef := zdef g; tdef := tdef g; vars := vars g; record := record g;
     attrs := attrs g |}.

Definition set_xdef (v : option Dimension) (g : GradsCtl) : GradsCtl :=
  {| dset := dset g; title := title g; options := options g;
     data_endian := data_endian g; local_endian := local_endian g;
     yrev := yrev g; undef := undef g; start_time := start_time g;
     forecast_time := forecast_time g; xdef := v; ydef := ydef g;
     zdef := zdef g; tdef := tdef g; vars := vars g; record := record g;
     attrs := attrs g |}.

Definition set_ydef (v : option Dimension) (g : GradsCtl) : GradsCtl :=
  {| dset := dset g; title := title g; options := options g;
     data_endian := data_endian g; local_endian := local_endian g;
     yrev := yrev g; undef := undef g; start_time := start_time g;
     forecast_time := forecast_time g; xdef := xdef g; ydef := v;
     zdef := zdef g; tdef := tdef g; vars := vars g; record := record g;
     attrs := attrs g |}.

Definition set_zdef (v : option Dimension) (g : GradsCtl) : GradsCtl :=
  {| dset := dset g; title := title g; options := options g;
     data_endian := data_endian g; local_endian := local_endian g;
     yrev := yrev g; undef := undef g; start_time := start_time g;
     forecast_time := forecast_time g; xdef := xdef g; ydef := ydef g;
     zdef := v; tdef := tdef g; vars := vars g; record := record g;
     attrs := attrs g |}.

Definition set_tdef (v : option TimeAxis) (g : GradsCtl) : GradsCtl :=
  {| dset := dset g; title := title g; options := options g;
     data_endian := data_endian g; local_endian := local_endian g;
     yrev := yrev g; undef := undef g; start_time := start_time g;
     forecast_time := forecast_time g; xdef := xdef g; ydef := ydef g;
     zdef := zdef g; tdef := v; vars := vars g; record := record g;
     attrs := attrs g |}.

Definition set_vars (v : list Var) (g : GradsCtl) : GradsCtl :=
  {| dset := dset g; title := title g; options := options g;
     data_endian := data_endian g; local_endian := local_endian g;
     yrev := yrev g; undef := undef g; start_time := start_time g;
     forecast_time := forecast_time g; xdef := xdef g; ydef := ydef g;
     zdef := zdef g; tdef := tdef g; vars := v; record := record g;
     attrs := attrs g |}.

Definition set_record (v : list RecordEntry) (g : GradsCtl) : GradsCtl :=
  {| dset := dset g; title := title g; options := options g;
     data_endian := data_endian g; local_endian := local_endian g;
     yrev := yrev g; undef := undef g; start_time := start_time g;
     forecast_time := forecast_time g; xdef := xdef g; ydef := ydef g;
     zdef := zdef g; tdef := tdef g; vars := vars g; record := v;
     attrs := attrs g |}.

Definition set_attrs (v : list (string * Dimension)) (g : GradsCtl)
  : GradsCtl :=
  {| dset := dset g; title := title g; options := options g;
     data_endian := data_endian g; local_endian := local_endian g;
     yrev := yrev g; undef := undef g; start_time := start_time g;
     forecast_time := forecast_time g; xdef := xdef g; ydef := ydef g;
     zdef := zdef g; tdef := tdef g; vars := vars g; record := record g;
     attrs := v |}.

(** [setattr(grads_ctl, dim_name, d)] for the dictionary of a dimension. *)
Definition setattr_dim (dim_name : string) (d : Dimension) (g : GradsCtl)
  : GradsCtl :=
  if String.eqb dim_name "xdef" then set_xdef (Some d) g
  else if String.eqb dim_name "ydef" then set_ydef (Some d) g
  else if String.eqb dim_name "zdef" then set_zdef (Some d) g
  else set_attrs ((dim_name, d) :: attrs g) g.

(** ** The parser object: [class GradsCtlParser] *)

Record Parser : Type := {
  ctl_file_path : string;
  grads_ctl : GradsCtl;
  ctl_file_lines : list string;
  cur_no : Z
}.

Definition set_grads_ctl (g : GradsCtl) (self : Parser) : Parser :=
  {| ctl_file_path := ctl_file_path self; grads_ctl := g;
     ctl_file_lines := ctl_file_lines self; cur_no := cur_no self |}.

Definition set_cur_no (n : Z) (self : Parser) : Parser :=
  {| ctl_file_path := ctl_file_path self; grads_ctl := grads_ctl self;
     ctl_file_lines := ctl_file_lines self; cur_no := n |}.

(** [self.grads_ctl.<field> = v] *)
Definition update (f : GradsCtl -> GradsCtl) (self : Parser) : Parser :=
  set_grads_ctl (f (grads_ctl self)) self.

(** [self.ctl_file_lines[self.cur_no]] *)
Definition cur_line (self : Parser) : result string :=
  Py.list_get (ctl_file_lines self) (cur_no self).

(** [for x in l: ...] over a state, where the body can raise. *)
Fixpoint foldM {A S} (f : A -> S -> result S) (l : list A) (s : S)
  : result S :=
  match l with
  | [] => Ok s
  | x :: l' => s' <- f x s ;; foldM f l' s'
  end.

(** The conversion of an [int] operand in [float * int]. *)
Definition float_of_int (n : Z) : float :=
  SF2Prim (binary_normalize 53 1024 n 0 false).

Section Parser.

(** The built-in [float()] on a [str]: [None] is its [ValueError]. *)
Variable float_of_str : string -> option float.

Definition py_float (s : string) : result float :=
  of_option ValueError (float_of_str s).

(** *** [_parse_ctl_file_name] *)

(** [re.match(r"[0-9]{15}", file_name)] *)
Definition matches_meso (file_name : string) : bool :=
  match Py.match_digits 15 file_name with
  | Some _ => true
  | None => false
  end.

(** [re.match(r"[0-9]{10}_[0-9]{3}", file_name)] *)
Definition matches_gfs (file_name : string) : bool :=
  match Py.match_digits 10 file_name with
  | Some (String c rest) =>
      Ascii.eqb c "_" &&
      match Py.match_digits 3 rest with
      | Some _ => true
      | None => false
      end
  | _ => false
  end.

Definition has_prefix (ctl_file_name : string) : bool :=
  Py.startswith ctl_file_name "post.ctl_"
  || Py.startswith ctl_file_name "model.ctl_".

(** [ctl_file_name[ctl_file_name.index("_")+1:]] *)
Definition after_underscore (ctl_file_name : string) : result string :=
  let k := Py.find_char "_" ctl_file_name in
  if k <? 0 then Raise ValueError else Ok (Py.slice_from ctl_file_name (k + 1)).

Definition _parse_ctl_file_name (self : Parser) : result Parser :=
  let ctl_file_name := Path.name (ctl_file_path self) in
  match start_time (grads_ctl self), forecast_time (grads_ctl self) with
  | None, None =>
      if has_prefix ctl_file_name then
        file_name <- after_underscore ctl_file_name ;;
        if matches_meso file_name then
          st <- Pd.to_datetime_YmdH (Py.slice_to file_name 10) ;;
          h <- Py.int (Py.slice file_name 11 14) ;;
          ft <- Pd.hours h ;;
          Ok (update (set_forecast_time (Some ft))
                (update (set_start_time (Some st)) self))
        else if matches_gfs file_name then
          st <- Pd.to_datetime_YmdH (Py.slice_to file_name 10) ;;
          h <- Py.int (Py.slice_from file_name 12) ;;
          ft <- Pd.hours h ;;
          Ok (update (set_forecast_time (Some ft))
                (update (set_start_time (Some st)) self))
        else Ok self
      else Ok self
  | _, _ => Ok self
  end.

(** *** [_parse_dset], [_parse_options], [_parse_title], [_parse_undef] *)

Definition _parse_dset (self : Parser) : result Parser :=
  cur_line <- cur_line self ;;
  let dset := Py.strip (Py.slice_from cur_line 4) in
  c <- Py.str_get dset 0 ;;
  if Ascii.eqb c "^" then
    let file_dir := Path.parent (ctl_file_path self) in
    Ok (update
          (set_dset (Some (DsetPath (Path.join file_dir (Py.slice_from dset 1)))))
          self)
  else Ok (update (set_dset (Some (DsetStr dset))) self).

Definition apply_option (g : GradsCtl) (an_option : string) : GradsCtl :=
  if String.eqb an_option "big_endian" then set_data_endian "big" g
  else if String.eqb an_option "little_endian" then set_data_endian "little" g
  else if String.eqb an_option "yrev" then set_yrev true g
  else g.

Definition _parse_options (self : Parser) : result Parser :=
  cur_line <- cur_line self ;;
  let options' := Py.split_on " " (Py.strip (Py.slice_from cur_line 7)) in
  let g := grads_ctl self in
  Ok (set_grads_ctl
        (List.fold_left apply_option options'
           (set_options (options g ++ options')%list g))
        self).

Definition _parse_title (self : Parser) : result Parser :=
  cur_line <- cur_line self ;;
  Ok (update (set_title (Py.strip (Py.slice_from cur_line 5))) self).

Definition _parse_undef (self : Parser) : result Parser :=
  cur_line <- cur_line self ;;
  v <- py_float (Py.strip (Py.slice_from cur_line 5)) ;;
  Ok (update (set_undef (Some v)) self).

(** *** [_parse_dimension] and its two decoders *)

Definition linear_values (count : Z) (start step : float) : list float :=
  List.map (fun n => (start + step * float_of_int n)%float) (Py.range count).

Definition _parse_linear_dimension (self : Parser) (dim_name : string)
    (tokens : list string) : result Parser :=
  if Z.of_nat (List.length tokens) <? 4
  then Raise (Exception (String.append dim_name " parser error"))
  else
    t1 <- Py.list_get tokens 1 ;;
    count <- Py.int t1 ;;
    t3 <- Py.list_get tokens 3 ;;
    start <- py_float t3 ;;
    t4 <- Py.list_get tokens 4 ;;
    step <- py_float t4 ;;
    let levels := linear_values count start step in
    Ok (update (setattr_dim dim_name (LinearDim count start step levels)) self).

(** The [while i < count] loop: [k] is the number of iterations left,
    [count - i]. *)
Fixpoint read_levels (k : nat) (self : Parser) (levels : list float)
  : result (Parser * list float) :=
  match k with
  | O => Ok (self, levels)
  | S k' =>
      let self' := set_cur_no (cur_no self + 1) self in
      cur_line <- cur_line self' ;;
      v <- py_float cur_line ;;
      read_levels k' self' (levels ++ [v])%list
  end.

Definition _parse_levels_dimension (self : Parser) (dim_name : string)
    (tokens : list string) : result Parser :=
  t1 <- Py.list_get tokens 1 ;;
  count <- Py.int t1 ;;
  levels <- (if 2 <? Z.of_nat (List.length tokens)
             then mapM py_float (Py.list_from tokens 3)
             else Ok []) ;;
  let i := Z.of_nat (List.length levels) in
  r <- read_levels (Z.to_nat (count - i)) self levels ;;
  let '(self', levels') := r in
  Ok (update (setattr_dim dim_name (LevelsDim count levels')) self').

(** [raise NotImplemented(...)] raises all the same: [NotImplemented] is not
    callable, so the call is a [TypeError]. *)
Definition raise_NotImplemented {A} : result A := Raise TypeError.

Definition _parse_dimension (self : Parser) : result Parser :=
  line <- cur_line self ;;
  let tokens := Py.split (Py.lower line) in
  dim_name <- Py.list_get tokens 0 ;;
  dimension_type <- Py.list_get tokens 2 ;;
  if String.eqb dimension_type "linear"
  then _parse_linear_dimension self dim_name tokens
  else if String.eqb dimension_type "levels"
  then _parse_levels_dimension self dim_name tokens
  else raise_NotImplemented.

(** *** [_parse_tdef] *)

Definition _parse_start_time (start_string : string) : result Pd.Timestamp :=
  c <- Py.str_get start_string 3 ;;
  if Ascii.eqb c ":" then raise_NotImplemented
  else if Py.len start_string =? 12
  then Pd.to_datetime_HzdbY (Py.lower start_string)
  else raise_NotImplemented.

Definition _parse_increment_time (increment_string : string)
  : result Pd.Timedelta :=
  vv <- Py.int (Py.slice_to increment_string (-2)) ;;
  let kk := Py.slice_from increment_string (-2) in
  if String.eqb kk "mn" then Pd.minutes vv
  else if String.eqb kk "hr" then Pd.hours vv
  else if String.eqb kk "dy" then Pd.days vv
  else raise_NotImplemented.

(** [[start_date + time_step * i for i in range(count)]] *)
Definition time_values (count : Z) (start_date : Pd.Timestamp)
    (time_step : Pd.Timedelta) : result (list Pd.Timestamp) :=
  mapM (fun i => d <- Pd.td_mul time_step i ;; Pd.ts_add start_date d)
    (Py.range count).

Definition _parse_tdef (self : Parser) : result Parser :=
  cur_line <- cur_line self ;;
  let parts := Py.split (Py.strip cur_line) in
  p2 <- Py.list_get parts 2 ;;
  py_assert (String.eqb p2 "linear") ;;;
  py_assert (Z.of_nat (List.length parts) =? 5) ;;;
  p1 <- Py.list_get parts 1 ;;
  count <- Py.int p1 ;;
  start_string <- Py.list_get parts 3 ;;
  increment_string <- Py.list_get parts 4 ;;
  start_date <- _parse_start_time start_string ;;
  time_step <- _parse_increment_time increment_string ;;
  values <- time_values count start_date time_step ;;
  Ok (update
        (set_tdef (Some {| t_count := count; t_start := start_date;
                           t_step := time_step; t_values := values |}))
        self).

(** *** [_parse_vars]: the catalogue, then the record index *)

(** One pass of the [for _ in range(count)] loop. *)
Definition parse_var_line (st : Parser * list Var)
  : result (Parser * list Var) :=
  let '(self, var_list) := st in
  let self' := set_cur_no (cur_no self + 1) self in
  line <- cur_line self' ;;
  let parts := Py.split (Py.strip line) in
  var_name <- Py.list_get parts 0 ;;
  p1 <- Py.list_get parts 1 ;;
  levels <- Py.int p1 ;;
  units <- Py.list_get parts 2 ;;
  let description := Py.join " " (Py.list_from parts 3) in
  Ok (self', (var_list ++ [{| v_name := var_name; v_levels := levels;
                              v_units := units;
                              v_description := description |}])%list).

Definition _parse_variables (self : Parser) : result Parser :=
  line <- cur_line self ;;
  let parts := Py.split (Py.strip line) in
  py_assert (Z.of_nat (List.length parts) =? 2) ;;;
  p1 <- Py.list_get parts 1 ;;
  count <- Py.int p1 ;;
  r <- foldM (fun _ st => parse_var_line st) (Py.range count) (self, []) ;;
  let '(self', var_list) := r in
  Ok (update (set_vars var_list) self').

(** The state of the loops of [_generate_records]: [record_list] and
    [record_index]. *)
Definition RecState : Type := (list RecordEntry * Z)%type.

Definition single_entry (valid_time : Pd.Timestamp) (v : Var)
    (record_index : Z) : RecordEntry :=
  {| r_name := v_name v; r_level_type := single; r_level := LevelInt 0;
     r_level_index := 0; r_valid_time := valid_time; r_units := v_units v;
     r_description := v_description v; r_record_index := record_index |}.

Definition multi_entry (valid_time : Pd.Timestamp) (v : Var) (a_level : float)
    (level_index record_index : Z) : RecordEntry :=
  {| r_name := v_name v; r_level_type := multi; r_level := LevelFloat a_level;
     r_level_index := level_index; r_valid_time := valid_time;
     r_units := v_units v; r_description := v_description v;
     r_record_index := record_index |}.

(** [self.grads_ctl.zdef["values"][level_index]]: subscripting [None] is a
    [TypeError]. *)
Definition zdef_level (zd : option Dimension) (level_index : Z)
  : result float :=
  d <- of_option TypeError zd ;;
  Py.list_get (dim_values d) level_index.

(** The body of [for level_index in range(0, levels)]. *)
Definition level_body (zd : option Dimension) (valid_time : Pd.Timestamp)
    (v : Var) (level_index : Z) (st : RecState) : result RecState :=
  let '(record_list, record_index) := st in
  a_level <- zdef_level zd level_index ;;
  Ok ((record_list
       ++ [multi_entry valid_time v a_level level_index record_index])%list,
      record_index + 1).

(** The body of [for a_var_record in self.grads_ctl.vars]. *)
Definition var_body (zd : option Dimension) (valid_time : Pd.Timestamp)
    (v : Var) (st : RecState) : result RecState :=
  if v_levels v =? 0 then
    let '(record_list, record_index) := st in
    Ok ((record_list ++ [single_entry valid_time v record_index])%list,
        record_index + 1)
  else foldM (level_body zd valid_time v) (Py.range (v_levels v)) st.

(** The body of [for valid_time in self.grads_ctl.tdef["values"]]. *)
Definition time_body (zd : option Dimension) (vs : list Var)
    (valid_time : Pd.Timestamp) (st : RecState) : result RecState :=
  foldM (var_body zd valid_time) vs st.

Definition _generate_records (self : Parser) : result Parser :=
  let g := grads_ctl self in
  td <- of_option TypeError (tdef g) ;;
  r <- foldM (time_body (zdef g) (vars g)) (t_values td) ([], 0) ;;
  Ok (update (set_record (fst r)) self).

Definition _parse_vars (self : Parser) : result Parser :=
  self' <- _parse_variables self ;;
  _generate_records self'.

(** *** [parse]: the keyword dispatcher *)

(** [self.parser_mapper], in the order of the dictionary display. *)
Definition parser_mapper : list (string * (Parser -> result Parser)) :=
  [ ("ctl_file_name", _parse_ctl_file_name);
    ("dset", _parse_dset);
    ("options", _parse_options);
    ("title", _parse_title);
    ("undef", _parse_undef);
    ("xdef", _parse_dimension);
    ("ydef", _parse_dimension);
    ("zdef", _parse_dimension);
    ("tdef", _parse_tdef);
    ("vars", _parse_vars) ].

(** [key in self.parser_mapper] *)
Definition mapper_has (key : string) : bool :=
  List.existsb (fun kv => String.eqb (fst kv) key) parser_mapper.

(** [self.parser_mapper[key]] *)
Definition mapper_get (key : string) : result (Parser -> result Parser) :=
  match List.find (fun kv => String.eqb (fst kv) key) parser_mapper with
  | Some kv => Ok (snd kv)
  | None => Raise (KeyError key)
  end.

(** [cur_line[0:cur_line.find(' ')]] *)
Definition first_word (cur_line : string) : string :=
  Py.slice_to cur_line (Py.find_char " " cur_line).

(** One pass of the [while] loop of [parse]. *)
Definition parse_line (self : Parser) : result Parser :=
  cur_line <- cur_line self ;;
  let first_word := first_word cur_line in
  self' <- (if mapper_has (Py.lower first_word)
            then handler <- mapper_get first_word ;; handler self
            else Ok self) ;;
  Ok (set_cur_no (cur_no self' + 1) self').

Definition total_lines (self : Parser) : Z :=
  Z.of_nat (List.length (ctl_file_lines self)).

(** [while self.cur_no < total_lines], with [fuel] bounding the number of
    passes; [None] when the bound is reached
    ([parse_loop_terminates]: it never is from [parse]). *)
Fixpoint parse_loop (fuel : nat) (self : Parser) : option (result Parser) :=
  if cur_no self <? total_lines self then
    match fuel with
    | O => None
    | S fuel' =>
        match parse_line self with
        | Ok self' => parse_loop fuel' self'
        | Raise e => Some (Raise e)
        end
    end
  else Some (Ok self).

(** [GradsCtlParser(ctl)] followed by [set_ctl_file_path(path)], with
    [lines] what [readlines()] returned. *)
Definition opened (ctl : GradsCtl) (path : string) (lines : list string)
  : Parser :=
  {| ctl_file_path := path; grads_ctl := ctl;
     ctl_file_lines := List.map Py.strip lines; cur_no := 0 |}.

(** [GradsCtlParser(ctl).parse(path)] *)
Definition parse (ctl : GradsCtl) (path : string) (lines : list string)
  : option (result GradsCtl) :=
  match parse_loop (List.length lines) (opened ctl path lines) with
  | Some (Ok self) =>
      Some (self' <- _parse_ctl_file_name self ;; Ok (grads_ctl self'))
  | Some (Raise e) => Some (Raise e)
  | None => None
  end.

End Parser.

(** ** Definitions used to state the properties *)

(** [k] passes of the [while] loop of [parse]. *)
Fixpoint passes (float_of_str : string -> option float) (k : nat)
    (self : Parser) : result Parser :=
  match k with
  | O => Ok self
  | S k' => self' <- parse_line float_of_str self ;; passes float_of_str k' self'
  end.

(** What a pass does to a line it skips: only the cursor moves. *)
Definition skipped (self : Parser) : Parser :=
  set_cur_no (cur_no self + 1) self.

(** The keywords of [parser_mapper]. *)
Definition keywords : list string :=
  ["ctl_file_name"; "dset"; "options"; "title"; "undef";
   "xdef"; "ydef"; "zdef"; "tdef"; "vars"].

Definition has_char (c : ascii) (s : string) : Prop :=
  List.In c (list_ascii_of_string s).

(** *** The order of the record index *)

(** The place of an entry in the three loops: the position of its time in
    [tdef["values"]], the position of its variable in [vars], its level
    index. *)
Record Key : Type := {
  k_time : nat;
  k_var : nat;
  k_level : Z
}.

(** The lexicographic order on (time, variable, level). *)
Definition key_lt (a b : Key) : Prop :=
  (k_time a < k_time b)%nat
  \/ (k_time a = k_time b
      /\ ((k_var a < k_var b)%nat
          \/ (k_var a = k_var b /\ k_level a < k_level b))).

(** The level indices of a variable: the one index 0 when [levels] is 0,
    [range(0, levels)] otherwise. *)
Definition level_slots (levels : Z) : list Z :=
  if levels =? 0 then [0] else Py.range levels.

Definition var_keys (t v : nat) (x : Var) : list Key :=
  List.map (fun l => {| k_time := t; k_var := v; k_level := l |})
    (level_slots (v_levels x)).

Fixpoint vars_keys (t v : nat) (vs : list Var) : list Key :=
  match vs with
  | [] => []
  | x :: vs' => (var_keys t v x ++ vars_keys t (S v) vs')%list
  end.

Fixpoint times_keys (t n : nat) (vs : list Var) : list Key :=
  match n with
  | O => []
  | S n' => (vars_keys t 0 vs ++ times_keys (S t) n' vs)%list
  end.

(** Time outermost, variable in the middle, level innermost. *)
Definition record_keys (T : nat) (vs : list Var) : list Key :=
  times_keys 0 T vs.

(** The entry [e] is the one of the place [k]: the time, the variable and
    the level found there. *)
Definition entry_at (times : list Pd.Timestamp) (vs : list Var)
    (zd : option Dimension) (k : Key) (e : RecordEntry) : Prop :=
  nth_error times (k_time k) = Some (r_valid_time e)
  /\ r_level_index e = k_level k
  /\ exists v,
      nth_error vs (k_var k) = Some v
      /\ r_name e = v_name v
      /\ r_units e = v_units v
      /\ r_description e = v_description v
      /\ (if v_levels v =? 0
          then r_level_type e = single /\ r_level e = LevelInt 0
          else r_level_type e = multi
               /\ exists a, zdef_level zd (k_level k) = Ok a
                            /\ r_level e = LevelFloat a).

(** The entries of [l] carry the indices [idx], [idx + 1], ... *)
Definition numbered (idx : Z) (l : list RecordEntry) : Prop :=
  forall p e, nth_error l p = Some e -> r_record_index e = idx + Z.of_nat p.

(** The number of entries a variable contributes at each time. *)
Definition slot_count (levels : Z) : Z :=
  if levels =? 0 then 1 else Z.max levels 0.

Definition entry_count (T : Z) (vs : list Var) : Z :=
  List.fold_right (fun v acc => T * slot_count (v_levels v) + acc) 0 vs.

(** The count as the specification words it: the sum over the variables of
    [T * max(level_count, 1)]. *)
Definition spec_entry_count (T : Z) (vs : list Var) : Z :=
  List.fold_right (fun v acc => T * Z.max (v_levels v) 1 + acc) 0 vs.

(** The record index that [_generate_records] builds from a document. *)
Definition built_from (g : GradsCtl) : result (list RecordEntry) :=
  self <- _generate_records
            {| ctl_file_path := ""; grads_ctl := g; ctl_file_lines := [];
               cur_no := 0 |} ;;
  Ok (record (grads_ctl self)).

(** *** The file-name conventions of [_parse_ctl_file_name] *)

Definition known_convention (ctl_file_name : string) : bool :=
  has_prefix ctl_file_name
  && match after_underscore ctl_file_name with
     | Ok file_name => matches_meso file_name || matches_gfs file_name
     | Raise _ => false
     end.

(** *** What the loops and the handlers do to the state *)

(** What a loop of the builder adds: [new] goes after the entries so far,
    numbered from the running index, and stands in [R] to the keys [ks] of
    the loop. *)
Definition appends (R : Key -> RecordEntry -> Prop) (ks : list Key)
    (st st' : RecState) : Prop :=
  exists new,
    st' = ((fst st ++ new)%list, snd st + Z.of_nat (List.length new))
    /\ numbered (snd st) new
    /\ Forall2 R ks new.

(** The file stays and the cursor does not go back. *)
Definition advances (self self' : Parser) : Prop :=
  ctl_file_path self' = ctl_file_path self
  /\ ctl_file_lines self' = ctl_file_lines self
  /\ cur_no self <= cur_no self'.

(** [start_time], [forecast_time] and [record] stay. *)
Definition keeps (self self' : Parser) : Prop :=
  start_time (grads_ctl self') = start_time (grads_ctl self)
  /\ forecast_time (grads_ctl self') = forecast_time (grads_ctl self)
  /\ record (grads_ctl self') = record (grads_ctl self).

(** *** What the scalar handlers leave alone *)


(** *** The catalogue of variables *)


(** ** Sample inputs *)

(** An instance of [float()] on plain decimal literals (a sign, digits, a
    point, digits), correctly rounded; it runs the parser on the samples. *)
Fixpoint all_digits (s : string) (acc : Z) : option Z :=
  match s with
  | EmptyString => Some acc
  | String c s' =>
      match Py.digit_val c with
      | Some d => all_digits s' (acc * 10 + d)
      | None => None
      end
  end.

Definition decimal_ratio (neg : bool) (m k : Z) : float :=
  match m with
  | Z.pos p =>
      SF2Prim (SFdiv 53 1024 (S754_finite neg p 0)
                 (S754_finite false (Z.to_pos (10 ^ k)) 0))
  | _ => SF2Prim (S754_zero neg)
  end.

Definition decimal_float (s : string) : option float :=
  let t := Py.strip s in
  let '(neg, body) :=
    match t with
    | String "-" r => (true, r)
    | String "+" r => (false, r)
    | _ => (false, t)
    end in
  let k := Py.find_char "." body in
  let ip := if k <? 0 then body else Py.slice_to body k in
  let fp := if k <? 0 then EmptyString else Py.slice_from body (k + 1) in
  if String.eqb (String.append ip fp) "" then None
  else
    match all_digits (String.append ip fp) 0 with
    | Some m => Some (decimal_ratio neg m (Py.len fp))
    | None => None
    end.

Definition new_ctl : GradsCtl := GradsCtl_new "little".

(** A descriptor of four longitudes, two latitudes, two levels, two times
    and two variables. *)
Definition sample_lines : list string :=
  ["dset ^postvar2021080200_024";
   "title post output";
   "options big_endian";
   "undef -9999.0";
   "xdef 4 linear 0.0 0.25";
   "ydef 2 linear -0.5 0.5";
   "zdef 2 levels";
   "1000.000";
   "850.0000";
   "tdef 2 linear 00z03AUG2021 360mn";
   "vars 2";
   "TMP 2 K temperature";
   "PRES 0 Pa surface pressure";
   "endvars"].

(** The parser at line [n] of the lines [lines], with an empty document. *)
Definition at_line (lines : list string) (n : Z) : Parser :=
  {| ctl_file_path := "post.ctl"; grads_ctl := new_ctl;
     ctl_file_lines := lines; cur_no := n |}.

(** The document of the ordering example: two times, [TMP] on two levels
    and the single-level [PRES], levels 1000 and 850. *)
Definition example_ctl : GradsCtl :=
  set_vars
    [{| v_name := "TMP"; v_levels := 2; v_units := "K";
        v_description := "temperature" |};
     {| v_name := "PRES"; v_levels := 0; v_units := "Pa";
        v_description := "surface pressure" |}]
    (set_zdef (Some (LevelsDim 2 [1000%float; 850%float]))
       (set_tdef
          (Some {| t_count := 2; t_start := 0; t_step := Pd.ns_per_hour;
                   t_values := [0; Pd.ns_per_hour] |})
          new_ctl)).

Definition example_parser : Parser :=
  {| ctl_file_path := "post.ctl"; grads_ctl := example_ctl;
     ctl_file_lines := []; cur_no := 0 |}.

Definition example_built : Parser :=
  match _generate_records example_parser with
  | Ok self => self
  | Raise _ => example_parser
  end.

(** A document with a time axis and a three-level variable, and no z
    axis. *)
Definition no_zdef_parser : Parser :=
  {| ctl_file_path := "post.ctl";
     grads_ctl :=
       set_vars [{| v_name := "TMP"; v_levels := 3; v_units := "K";
                    v_description := "temperature" |}]
         (set_tdef (Some {| t_count := 1; t_start := 0;
                            t_step := Pd.ns_per_hour; t_values := [0] |})
            new_ctl);
     ctl_file_lines := []; cur_no := 0 |}.

(** 2021-08-03T00:00, in nanoseconds from 1970-01-01T00:00. *)
Definition t_2021_08_03 : Pd.Timestamp := 1627948800 * 10 ^ 9.

(** The sample descriptor at its [zdef] line: no inline value, two
    continuation lines. *)
Definition at_zdef : Parser := at_line sample_lines 6.

(** The sample descriptor at its [vars] line, with the axes of the lines
    before it. *)
Definition at_vars : Parser :=
  match passes decimal_float 8 (opened new_ctl "post.ctl" sample_lines) with
  | Ok self => self
  | Raise _ => at_line sample_lines 10
  end.

(** A Gaussian latitude axis after two good lines, a start time written
    with [hh:mm], and a monthly increment. *)
Definition gaussian_lines : list string :=
  ["title post output"; "xdef 4 linear 0.0 0.25"; "ydef 2 gausr40 1"].

Definition colon_lines : list string :=
  ["tdef 2 linear 00:00z03aug2021 360mn"].

Definition monthly_lines : list string :=
  ["tdef 2 linear 00z03aug2021 1mo"].

(** * Properties *)

(** ** The result monad and the loops *)

Lemma bind_Ok {A B} (m : result A) (k : A -> result B) (b : B) :
  bind m k = Ok b -> exists a, m = Ok a /\ k a = Ok b.
Proof.
  destruct m as [a | e]; simpl; intros H; [eauto | discriminate].
Qed.

Lemma bind_Raise {A B} (m : result A) (k : A -> result B) (e : exn) :
  m = Raise e -> bind m k = Raise e.
Proof. intros ->; reflexivity. Qed.

(** A closed statement about a sample input is settled by running the
    definitions: conjunctions are split, witnesses are read off the value
    computed. *)
Ltac evaluate :=
  repeat match goal with
         | |- _ /\ _ => split
         | |- exists _, _ => eexists
         end;
  vm_compute; reflexivity.

(** Splits a successful sequence of binds, conditionals and assertions into
    its steps. *)
Ltac inv_ok H :=
  repeat
    match type of H with
    | bind ?m _ = Ok _ =>
        let a := fresh "a" in
        let E := fresh "E" in
        apply bind_Ok in H; destruct H as (a & E & H)
    | Raise _ = Ok _ => discriminate H
    | raise_NotImplemented = Ok _ => discriminate H
    | Ok _ = Ok _ => injection H as H
    | (if ?b then _ else _) = Ok _ =>
        let C := fresh "C" in destruct b eqn:C
    | (let '(_, _) := ?p in _) = Ok _ => destruct p
    end.


Lemma mapM_length {A B} (f : A -> result B) (l : list A) (r : list B) :
  mapM f l = Ok r -> List.length r = List.length l.
Proof.
  revert r; induction l as [| x l IH]; simpl; intros r H.
  - injection H as <-; reflexivity.
  - inv_ok H. subst r. simpl. f_equal. eauto.
Qed.

Lemma mapM_nth {A B} (f : A -> result B) (l : list A) (r : list B) :
  mapM f l = Ok r ->
  forall n x, nth_error l n = Some x ->
              exists y, nth_error r n = Some y /\ f x = Ok y.
Proof.
  revert r; induction l as [| x l IH]; simpl; intros r H n x0 Hn.
  - destruct n; discriminate.
  - inv_ok H. subst r. destruct n as [| n]; simpl in *.
    + injection Hn as ->. eauto.
    + eauto.
Qed.

(** ** Indexing *)

Lemma list_get_nth {A} (l : list A) (i : Z) (x : A) :
  0 <= i -> Py.list_get l i = Ok x -> nth_error l (Z.to_nat i) = Some x.
Proof.
  unfold Py.list_get; intros Hi H.
  destruct (i <? 0) eqn:C; [lia |].
  destruct (_ && _); [| discriminate].
  destruct (nth_error l (Z.to_nat i)); simpl in H; congruence.
Qed.



Lemma range_length (n : Z) : List.length (Py.range n) = Z.to_nat n.
Proof. unfold Py.range. rewrite length_map, length_seq. reflexivity. Qed.

Lemma range_nth (n : Z) (i : nat) :
  (i < Z.to_nat n)%nat -> nth_error (Py.range n) i = Some (Z.of_nat i).
Proof.
  intros H. unfold Py.range.
  rewrite nth_error_map, nth_error_seq.
  destruct (Nat.ltb_spec i (Z.to_nat n)); [reflexivity | lia].
Qed.

(** ** The record index builder *)

Lemma numbered_nil (idx : Z) : numbered idx [].
Proof. intros [| p] e H; discriminate. Qed.

Lemma numbered_app (idx : Z) (l1 l2 : list RecordEntry) :
  numbered idx l1 ->
  numbered (idx + Z.of_nat (List.length l1)) l2 ->
  numbered idx (l1 ++ l2).
Proof.
  intros H1 H2 p e Hp.
  destruct (Nat.lt_ge_cases p (List.length l1)) as [Hlt | Hge].
  - rewrite nth_error_app1 in Hp by assumption. auto.
  - rewrite nth_error_app2 in Hp by assumption.
    apply H2 in Hp. lia.
Qed.

Lemma numbered_one (idx : Z) (e : RecordEntry) :
  r_record_index e = idx -> numbered idx [e].
Proof.
  intros H [| [| p]] e' Hp; simpl in Hp; try discriminate.
  injection Hp as <-. lia.
Qed.

Lemma appends_nil R st : appends R [] st st.
Proof.
  exists []. destruct st as [l idx]; simpl.
  rewrite app_nil_r, Z.add_0_r.
  repeat split; [apply numbered_nil | constructor].
Qed.

Lemma appends_trans R ks1 ks2 st1 st2 st3 :
  appends R ks1 st1 st2 -> appends R ks2 st2 st3 ->
  appends R (ks1 ++ ks2) st1 st3.
Proof.
  intros (n1 & -> & N1 & F1) (n2 & -> & N2 & F2). simpl in *.
  exists (n1 ++ n2)%list. repeat split.
  - rewrite app_assoc, length_app, Nat2Z.inj_add, Z.add_assoc. reflexivity.
  - apply numbered_app; assumption.
  - apply Forall2_app; assumption.
Qed.

Section Builder.

Variable zd : option Dimension.
Variable times : list Pd.Timestamp.
Variable vs : list Var.

Let R := entry_at times vs zd.

Lemma level_loop (t v : nat) (valid_time : Pd.Timestamp) (x : Var) :
  nth_error times t = Some valid_time ->
  nth_error vs v = Some x ->
  v_levels x <> 0 ->
  forall ls st st',
    foldM (level_body zd valid_time x) ls st = Ok st' ->
    appends R
      (List.map (fun l => {| k_time := t; k_var := v; k_level := l |}) ls)
      st st'.
Proof.
  intros Ht Hv Hx. induction ls as [| l ls IH]; simpl; intros st st' H.
  - injection H as <-. apply appends_nil.
  - inv_ok H. apply IH in H.
    change (?k :: List.map ?f ls) with ([k] ++ List.map f ls)%list.
    eapply appends_trans; [| exact H].
    destruct st as [rl idx]. unfold level_body in E. inv_ok E. subst a.
    eexists [_]. simpl. repeat split.
    + apply numbered_one. reflexivity.
    + constructor; [| constructor].
      unfold R, entry_at; simpl. repeat split; try assumption.
      exists x. repeat split; try assumption.
      apply Z.eqb_neq in Hx. rewrite Hx. split; [reflexivity |].
      exists a0. split; [assumption | reflexivity].
Qed.

Lemma var_step (t v : nat) (valid_time : Pd.Timestamp) (x : Var) :
  nth_error times t = Some valid_time ->
  nth_error vs v = Some x ->
  forall st st',
    var_body zd valid_time x st = Ok st' ->
    appends R (var_keys t v x) st st'.
Proof.
  intros Ht Hv st st' H. unfold var_body in H. unfold var_keys, level_slots.
  destruct (v_levels x =? 0) eqn:C.
  - destruct st as [rl idx]. injection H as <-.
    eexists [_]. simpl. repeat split.
    + apply numbered_one. reflexivity.
    + constructor; [| constructor].
      unfold R, entry_at; simpl. repeat split; try assumption.
      exists x. rewrite C. repeat split; assumption.
  - apply Z.eqb_neq in C. eapply level_loop; eauto.
Qed.

Lemma var_loop (t : nat) (valid_time : Pd.Timestamp) :
  nth_error times t = Some valid_time ->
  forall xs pre st st',
    vs = (pre ++ xs)%list ->
    foldM (var_body zd valid_time) xs st = Ok st' ->
    appends R (vars_keys t (List.length pre) xs) st st'.
Proof.
  intros Ht. induction xs as [| x xs IH]; simpl; intros pre st st' Hvs H.
  - injection H as <-. apply appends_nil.
  - inv_ok H. eapply appends_trans.
    + eapply var_step; eauto.
      rewrite Hvs, nth_error_app2, Nat.sub_diag by lia. reflexivity.
    + specialize (IH (pre ++ [x])%list a st').
      rewrite length_app, Nat.add_1_r in IH. apply IH; [| assumption].
      rewrite <- app_assoc. assumption.
Qed.

Lemma time_loop :
  forall ts pre st st',
    times = (pre ++ ts)%list ->
    foldM (time_body zd vs) ts st = Ok st' ->
    appends R (times_keys (List.length pre) (List.length ts) vs) st st'.
Proof.
  induction ts as [| t ts IH]; simpl; intros pre st st' Hts H.
  - injection H as <-. apply appends_nil.
  - inv_ok H. eapply appends_trans.
    + eapply (var_loop (List.length pre) t) with (pre := []); eauto.
      rewrite Hts, nth_error_app2, Nat.sub_diag by lia. reflexivity.
    + specialize (IH (pre ++ [t])%list a st').
      rewrite length_app, Nat.add_1_r in IH. apply IH; [| assumption].
      rewrite <- app_assoc. assumption.
Qed.

End Builder.

(** *** The keys are in lexicographic order *)

Lemma sorted_app (l1 l2 : list Key) :
  StronglySorted key_lt l1 -> StronglySorted key_lt l2 ->
  (forall a b, List.In a l1 -> List.In b l2 -> key_lt a b) ->
  StronglySorted key_lt (l1 ++ l2).
Proof.
  induction l1 as [| x l1 IH]; simpl; intros S1 S2 H.
  - assumption.
  - inversion_clear S1 as [| ? ? S1' F1]. constructor.
    + apply IH; auto.
    + apply Forall_app. split; [assumption |].
      apply Forall_forall. auto.
Qed.

Lemma range_sorted_from (a n : nat) :
  StronglySorted Z.lt (List.map Z.of_nat (seq a n)).
Proof.
  revert a; induction n as [| n IH]; intros a; simpl; constructor.
  - apply IH.
  - apply Forall_forall. intros z Hz.
    apply in_map_iff in Hz. destruct Hz as (m & <- & Hm).
    apply in_seq in Hm. lia.
Qed.

Lemma level_slots_sorted (levels : Z) : StronglySorted Z.lt (level_slots levels).
Proof.
  unfold level_slots. destruct (levels =? 0).
  - repeat constructor.
  - apply range_sorted_from.
Qed.

Lemma var_keys_sorted (t v : nat) (x : Var) :
  StronglySorted key_lt (var_keys t v x).
Proof.
  unfold var_keys.
  induction (level_slots_sorted (v_levels x)) as [| l ls S IH F]; simpl.
  - constructor.
  - constructor; [assumption |].
    apply Forall_forall. intros k Hk.
    apply in_map_iff in Hk. destruct Hk as (l' & <- & Hl').
    rewrite Forall_forall in F.
    right; simpl; split; [reflexivity |]. right; split; [reflexivity | auto].
Qed.

Lemma var_keys_In (t v : nat) (x : Var) (k : Key) :
  List.In k (var_keys t v x) -> k_time k = t /\ k_var k = v.
Proof.
  unfold var_keys. intros H. apply in_map_iff in H.
  destruct H as (l & <- & _). split; reflexivity.
Qed.

Lemma vars_keys_In (t v : nat) (xs : list Var) (k : Key) :
  List.In k (vars_keys t v xs) -> k_time k = t /\ (v <= k_var k)%nat.
Proof.
  revert v; induction xs as [| x xs IH]; simpl; intros v H.
  - contradiction.
  - apply in_app_or in H. destruct H as [H | H].
    + apply var_keys_In in H. lia.
    + apply IH in H. lia.
Qed.

Lemma vars_keys_sorted (t v : nat) (xs : list Var) :
  StronglySorted key_lt (vars_keys t v xs).
Proof.
  revert v; induction xs as [| x xs IH]; simpl; intros v.
  - constructor.
  - apply sorted_app; [apply var_keys_sorted | apply IH |].
    intros a b Ha Hb. apply var_keys_In in Ha. apply vars_keys_In in Hb.
    right. split; [lia |]. left. lia.
Qed.

Lemma times_keys_In (t n : nat) (xs : list Var) (k : Key) :
  List.In k (times_keys t n xs) -> (t <= k_time k)%nat.
Proof.
  revert t; induction n as [| n IH]; simpl; intros t H.
  - contradiction.
  - apply in_app_or in H. destruct H as [H | H].
    + apply vars_keys_In in H. lia.
    + apply IH in H. lia.
Qed.

Lemma times_keys_sorted (t n : nat) (xs : list Var) :
  StronglySorted key_lt (times_keys t n xs).
Proof.
  revert t; induction n as [| n IH]; simpl; intros t.
  - constructor.
  - apply sorted_app; [apply vars_keys_sorted | apply IH |].
    intros a b Ha Hb. apply vars_keys_In in Ha. apply times_keys_In in Hb.
    left. lia.
Qed.

(** *** The number of entries *)

Lemma level_slots_length (levels : Z) :
  Z.of_nat (List.length (level_slots levels)) = slot_count levels.
Proof.
  unfold level_slots, slot_count. destruct (levels =? 0).
  - reflexivity.
  - rewrite range_length. lia.
Qed.

Lemma vars_keys_length (t v : nat) (xs : list Var) :
  Z.of_nat (List.length (vars_keys t v xs)) = entry_count 1 xs.
Proof.
  unfold entry_count.
  revert v; induction xs as [| x xs IH]; cbn [vars_keys fold_right]; intros v.
  - reflexivity.
  - rewrite length_app, Nat2Z.inj_add, IH. unfold var_keys.
    rewrite length_map, level_slots_length. lia.
Qed.

Lemma entry_count_scale (T : Z) (xs : list Var) :
  entry_count T xs = T * entry_count 1 xs.
Proof.
  unfold entry_count.
  induction xs as [| x xs IH]; cbn [fold_right]; [lia |]. rewrite IH. lia.
Qed.

Lemma times_keys_length (t n : nat) (xs : list Var) :
  Z.of_nat (List.length (times_keys t n xs)) = entry_count (Z.of_nat n) xs.
Proof.
  rewrite entry_count_scale.
  revert t; induction n as [| n IH]; intros t.
  - simpl. lia.
  - cbn [times_keys]. rewrite length_app, Nat2Z.inj_add, IH, (vars_keys_length t 0).
    lia.
Qed.

Lemma spec_entry_count_nonneg (T : Z) (xs : list Var) :
  Forall (fun x => 0 <= v_levels x) xs ->
  entry_count T xs = spec_entry_count T xs.
Proof.
  unfold entry_count, spec_entry_count.
  induction 1 as [| x xs Hx _ IH]; cbn [fold_right]; [reflexivity |].
  rewrite IH. unfold slot_count.
  destruct (Z.eqb_spec (v_levels x) 0) as [-> | Hn]; [reflexivity |].
  f_equal. f_equal. lia.
Qed.

(** *** The keys are all the places, each once *)

Lemma var_keys_iff (t v : nat) (x : Var) (k : Key) :
  List.In k (var_keys t v x) <->
  k_time k = t /\ k_var k = v /\ List.In (k_level k) (level_slots (v_levels x)).
Proof.
  unfold var_keys. rewrite in_map_iff. split.
  - intros (l & <- & Hl). simpl. auto.
  - intros (Ht & Hv & Hl). exists (k_level k). split; [| assumption].
    destruct k; simpl in *; subst; reflexivity.
Qed.

Lemma vars_keys_iff (t v : nat) (xs : list Var) (k : Key) :
  List.In k (vars_keys t v xs) <->
  k_time k = t /\ (v <= k_var k)%nat
  /\ exists x, nth_error xs (k_var k - v) = Some x
               /\ List.In (k_level k) (level_slots (v_levels x)).
Proof.
  revert v; induction xs as [| x xs IH]; intros v; cbn [vars_keys].
  - split; [contradiction |]. intros (_ & _ & y & Hy & _).
    destruct (k_var k - v)%nat; discriminate.
  - rewrite in_app_iff, var_keys_iff, IH. split.
    + intros [(Ht & Hv & Hl) | (Ht & Hv & y & Hy & Hl)].
      * repeat split; [assumption | lia |]. exists x.
        rewrite Hv, Nat.sub_diag. auto.
      * repeat split; [assumption | lia |]. exists y.
        replace (k_var k - v)%nat with (S (k_var k - S v)) by lia. auto.
    + intros (Ht & Hv & y & Hy & Hl).
      destruct (Nat.eq_dec (k_var k) v) as [E | N].
      * left. rewrite E, Nat.sub_diag in Hy. injection Hy as ->. auto.
      * right. repeat split; [assumption | lia |]. exists y.
        replace (k_var k - v)%nat with (S (k_var k - S v)) in Hy by lia. auto.
Qed.

Lemma times_keys_iff (t n : nat) (xs : list Var) (k : Key) :
  List.In k (times_keys t n xs) <->
  (t <= k_time k < t + n)%nat
  /\ exists x, nth_error xs (k_var k) = Some x
               /\ List.In (k_level k) (level_slots (v_levels x)).
Proof.
  revert t; induction n as [| n IH]; intros t; cbn [times_keys].
  - split; [contradiction | lia].
  - rewrite in_app_iff, vars_keys_iff, IH, Nat.sub_0_r. split.
    + intros [(Ht & _ & H) | (Ht & H)]; (split; [lia | assumption]).
    + intros (Ht & H).
      destruct (Nat.eq_dec (k_time k) t) as [E | N].
      * left. repeat split; [assumption | lia | assumption].
      * right. split; [lia | assumption].
Qed.

Lemma numbered_indices (l : list RecordEntry) :
  numbered 0 l ->
  List.map r_record_index l = Py.range (Z.of_nat (List.length l)).
Proof.
  intros H. apply nth_error_ext. intros p.
  rewrite nth_error_map.
  destruct (nth_error l p) as [e |] eqn:E; simpl.
  - rewrite range_nth.
    + rewrite (H p e E). reflexivity.
    + rewrite Nat2Z.id. apply nth_error_Some. congruence.
  - symmetry. apply nth_error_None. rewrite range_length, Nat2Z.id.
    apply nth_error_None. assumption.
Qed.

(** The ordering example of the specification: (TMP,t0,l0,0), (TMP,t0,l1,1),
    (PRES,t0,single,2), (TMP,t1,l0,3), (TMP,t1,l1,4), (PRES,t1,single,5). *)
Example record_index_example :
  _generate_records example_parser = Ok example_built
  /\ List.map
       (fun e => (r_name e, r_valid_time e, r_level_type e, r_level_index e,
                  r_record_index e))
       (record (grads_ctl example_built))
     = [("TMP", 0, multi, 0, 0); ("TMP", 0, multi, 1, 1);
        ("PRES", 0, single, 0, 2);
        ("TMP", Pd.ns_per_hour, multi, 0, 3);
        ("TMP", Pd.ns_per_hour, multi, 1, 4);
        ("PRES", Pd.ns_per_hour, single, 0, 5)].
Proof. evaluate. Qed.

(** C1 (amended): when [_generate_records] succeeds, the record list
    enumerates the places (time, variable, level) in lexicographic order,
    time outermost, variable in the middle, level innermost: the keys are
    strictly increasing, they are all the places of the document, and the
    entry at each position is the one of the key at that position.  The
    [record_index] values are 0, 1, 2, ... in order, so each equals its
    position.  The number of entries is the sum over the variables of
    [T * n], where [n] is 1 for [levels = 0], [levels] for [levels > 0] and
    0 for [levels < 0]; when no variable has a negative [levels] this is
    the sum of [T * max(levels, 1)]. *)
Theorem C1_record_index_order (self self' : Parser) :
  _generate_records self = Ok self' ->
  exists td,
    tdef (grads_ctl self) = Some td
    /\ let times := t_values td in
       let vs := vars (grads_ctl self) in
       let out := record (grads_ctl self') in
       let T := List.length times in
       let keys := record_keys T vs in
       StronglySorted key_lt keys
       /\ (forall k,
              List.In k keys <->
              (k_time k < T)%nat
              /\ exists x, nth_error vs (k_var k) = Some x
                           /\ List.In (k_level k) (level_slots (v_levels x)))
       /\ Forall2 (entry_at times vs (zdef (grads_ctl self))) keys out
       /\ List.map r_record_index out = Py.range (Z.of_nat (List.length out))
       /\ Z.of_nat (List.length out) = entry_count (Z.of_nat T) vs
       /\ (Forall (fun x => 0 <= v_levels x) vs ->
           Z.of_nat (List.length out) = spec_entry_count (Z.of_nat T) vs).
Proof.
  intros H. unfold _generate_records in H. inv_ok H.
  destruct (tdef (grads_ctl self)) as [td |] eqn:Etd; [| discriminate].
  injection E as <-. exists td. split; [reflexivity |].
  apply (time_loop _ (t_values td) _ (t_values td) []) in E0; [| reflexivity].
  destruct E0 as (new & Ea & Hnum & Hall). simpl in Ea.
  subst self'. rewrite Ea. simpl.
  assert (Hlen : List.length new
                 = List.length (record_keys (List.length (t_values td))
                                  (vars (grads_ctl self)))).
  { symmetry. eapply Forall2_length. exact Hall. }
  split; [apply times_keys_sorted |].
  split.
  { intros k. unfold record_keys. rewrite times_keys_iff.
    split; intros [Ht Hx]; (split; [lia | assumption]). }
  split; [assumption |].
  split; [apply numbered_indices; assumption |].
  split.
  - rewrite Hlen. apply times_keys_length.
  - intros Hnn. rewrite Hlen. unfold record_keys.
    rewrite times_keys_length. apply spec_entry_count_nonneg. assumption.
Qed.

Lemma C1_record_index_order_witness :
  _generate_records example_parser = Ok example_built
  /\ List.map r_record_index (record (grads_ctl example_built))
     = [0; 1; 2; 3; 4; 5]
  /\ Z.of_nat (List.length (record (grads_ctl example_built)))
     = spec_entry_count 2 (vars example_ctl).
Proof.
  assert (H : _generate_records example_parser = Ok example_built)
    by (vm_compute; reflexivity).
  split; [exact H |].
  destruct (C1_record_index_order _ _ H)
    as (td & Etd & _ & _ & _ & Hidx & _ & Hspec).
  injection Etd as <-.
  split.
  - rewrite Hidx. reflexivity.
  - apply Hspec. repeat constructor; simpl; lia.
Defined.

(** C1 as stated fails on the count: a variable declared with a negative
    number of levels contributes no entry, where [T * max(levels, 1)]
    counts one per time. *)
Lemma C1_counterexample_negative_levels :
  exists doc td,
    parse decimal_float new_ctl "post.ctl"
      ["tdef 1 linear 00z03aug2021 360mn"; "vars 1"; "TMP -1 K temperature";
       "endvars"] = Some (Ok doc)
    /\ tdef doc = Some td
    /\ record doc = []
    /\ spec_entry_count (Z.of_nat (List.length (t_values td))) (vars doc) = 1.
Proof. evaluate. Qed.

(** ** Missing axes *)

Lemma var_loop_no_zdef (valid_time : Pd.Timestamp) (xs : list Var) :
  Exists (fun x => 0 < v_levels x) xs ->
  forall st, foldM (var_body None valid_time) xs st = Raise TypeError.
Proof.
  induction xs as [| x xs IH]; intros HE st.
  - inversion HE.
  - cbn [foldM]. unfold var_body at 1.
    destruct (Z.eqb_spec (v_levels x) 0) as [E0 | N0].
    + destruct st as [rl idx]. cbn [bind]. apply IH.
      inversion_clear HE as [? ? Hx | ? ? Hxs]; [lia | assumption].
    + destruct (Z.lt_ge_cases 0 (v_levels x)) as [Hpos | Hneg].
      * unfold Py.range.
        destruct (Z.to_nat (v_levels x)) as [| n] eqn:En; [lia |].
        destruct st as [rl idx]. reflexivity.
      * unfold Py.range. replace (Z.to_nat (v_levels x)) with O by lia.
        cbn [seq List.map foldM bind]. apply IH.
        inversion_clear HE as [? ? Hx | ? ? Hxs]; [lia | assumption].
Qed.

(** C4 (amended): [_generate_records] raises, and stores no record list,
    when no time axis was decoded; and when the time axis has at least one
    time, no z axis was decoded and some variable has [levels > 0].  The
    error is the [TypeError] of subscripting [None]. *)
Theorem C4_missing_axis (self : Parser) :
  (tdef (grads_ctl self) = None -> _generate_records self = Raise TypeError)
  /\ (forall td,
         tdef (grads_ctl self) = Some td ->
         t_values td <> [] ->
         zdef (grads_ctl self) = None ->
         Exists (fun x => 0 < v_levels x) (vars (grads_ctl self)) ->
         _generate_records self = Raise TypeError).
Proof.
  unfold _generate_records. split.
  - intros ->. reflexivity.
  - intros td -> Ht -> HE. cbn [of_option bind].
    destruct (t_values td) as [| t ts]; [congruence |].
    cbn [foldM]. unfold time_body at 1.
    rewrite var_loop_no_zdef by assumption. reflexivity.
Qed.

Lemma C4_missing_axis_witness :
  _generate_records (at_line [] 0) = Raise TypeError
  /\ _generate_records no_zdef_parser = Raise TypeError.
Proof.
  split.
  - apply (proj1 (C4_missing_axis (at_line [] 0))). reflexivity.
  - eapply (proj2 (C4_missing_axis no_zdef_parser)).
    + reflexivity.
    + simpl. discriminate.
    + reflexivity.
    + constructor. simpl. lia.
Defined.

(** C4 as stated fails when the time axis is empty: [tdef 0 ...] is
    accepted, the loops never reach the z axis, and the parse returns a
    document although a variable has three levels and no z axis was
    decoded. *)
Lemma C4_counterexample_empty_time_axis :
  exists doc,
    parse decimal_float new_ctl "post.ctl"
      ["tdef 0 linear 00z03aug2021 360mn"; "vars 1"; "TMP 3 K temperature";
       "endvars"] = Some (Ok doc)
    /\ zdef doc = None
    /\ List.map v_levels (vars doc) = [3]
    /\ record doc = [].
Proof. evaluate. Qed.

(** ** Linear dimensions *)




(** C5, at the line [xdef 4 linear 0.0]: the start token is present and the
    step token is missing.  The guard [len(tokens) < 4] lets the line
    through and [tokens[4]] raises [IndexError], not the
    [xdef parser error] that a line without a start token gets. *)
Theorem C5_missing_step_is_index_error :
  parse decimal_float new_ctl "post.ctl" ["xdef 4 linear 0.0"]
  = Some (Raise IndexError)
  /\ parse decimal_float new_ctl "post.ctl" ["xdef 4 linear"]
     = Some (Raise (Exception "xdef parser error")).
Proof. evaluate. Qed.

(** ** The time axis *)

Lemma py_assert_Ok (b : bool) (u : unit) : py_assert b = Ok u -> b = true.
Proof. destruct b; [reflexivity | discriminate]. Qed.

Lemma index_of_In (x : string) (l : list string) (i j : Z) :
  Pd.index_of x l i = Some j -> List.In x l.
Proof.
  revert i; induction l as [| y l IH]; simpl; intros i H; [discriminate |].
  destruct (String.eqb_spec x y) as [-> | _]; [left; reflexivity |].
  right. eauto.
Qed.

Lemma fields_Ok (y m d h : option Z) (t : Pd.Timestamp) :
  Pd.fields y m d h = Ok t ->
  exists y' m' d' h',
    y = Some y' /\ m = Some m' /\ d = Some d' /\ h = Some h'.
Proof.
  destruct y, m, d, h; simpl; intros H; try discriminate.
  repeat eexists.
Qed.

Lemma has_char_lower (c : ascii) (s : string) :
  Py.lower_char c = c -> has_char c s -> has_char c (Py.lower s).
Proof.
  intros Hc. unfold has_char.
  induction s as [| d s IH]; simpl; [tauto |].
  intros [-> | H]; [left; assumption | right; auto].
Qed.

(** No directive of the format matches a colon. *)
Ltac no_colon :=
  unfold Pd.field_H, Pd.field_d, Pd.field_Y, Pd.two_digits, Pd.in_range in *;
  repeat
    match goal with
    | H : context [Py.digit_val ?c] |- _ => is_var c; destruct (Py.digit_val c)
    | H : context [Ascii.eqb ?c _] |- _ => is_var c; destruct (Ascii.eqb c _)
    end;
  simpl in *; discriminate.

Lemma field_b_no_colon (a b c : ascii) (m : Z) :
  Pd.field_b a b c = Some m -> a <> ":"%char /\ b <> ":"%char /\ c <> ":"%char.
Proof.
  unfold Pd.field_b. intros H. apply index_of_In in H.
  repeat split; intros ->; simpl in H;
    repeat (destruct H as [H | H]; [discriminate H |]); contradiction.
Qed.

Lemma to_datetime_HzdbY_no_colon (s : string) (t : Pd.Timestamp) :
  Pd.to_datetime_HzdbY s = Ok t -> ~ has_char ":" s.
Proof.
  intros H.
  do 12 (destruct s as [| ? s]; [discriminate H |]).
  destruct s; [| discriminate H].
  unfold Pd.to_datetime_HzdbY in H.
  destruct (Ascii.eqb (Py.lower_char a1) "z") eqn:Z; [| discriminate H].
  apply fields_Ok in H. destruct H as (y' & m' & d' & h' & FY & FB & FD & FH).
  apply field_b_no_colon in FB. destruct FB as (B1 & B2 & B3).
  unfold has_char. simpl.
  intros [E | [E | [E | [E | [E | [E | [E | [E | [E | [E | [E | [E | []]]]]]]]]]]]];
    subst; try congruence; try discriminate Z; no_colon.
Qed.

(** A start token with a colon anywhere is refused. *)
Lemma start_time_colon (start_string : string) :
  has_char ":" start_string ->
  exists e, _parse_start_time start_string = Raise e.
Proof.
  intros Hc. destruct (_parse_start_time start_string) as [t | e] eqn:H;
    [| eauto].
  exfalso. unfold _parse_start_time in H. inv_ok H.
  apply to_datetime_HzdbY_no_colon in H. apply H.
  apply has_char_lower; [reflexivity | assumption].
Qed.

Lemma time_values_spec (count : Z) (start : Pd.Timestamp) (step : Pd.Timedelta)
    (values : list Pd.Timestamp) :
  time_values count start step = Ok values ->
  List.length values = Z.to_nat count
  /\ forall i, 0 <= i < count ->
               nth_error values (Z.to_nat i) = Some (start + i * step).
Proof.
  intros H. unfold time_values in H. split.
  - apply mapM_length in H. rewrite H. apply range_length.
  - intros i Hi.
    destruct (mapM_nth _ _ _ H (Z.to_nat i) (Z.of_nat (Z.to_nat i)))
      as (y & Hy & Hf).
    { apply range_nth. lia. }
    rewrite Hy. f_equal. rewrite Z2Nat.id in Hf by lia.
    unfold Pd.td_mul, Pd.ts_add in Hf. inv_ok Hf. inv_ok E. subst. lia.
Qed.

(** C6: a [tdef] line that [_parse_tdef] accepts has five fields, the third
    being [linear], a start token of twelve characters with no colon and an
    increment whose unit is [mn], [hr] or [dy]; the stored axis holds
    [count] values (none when [count] is negative), and [values[i]] is
    [start + i * step] for every [i] in [[0, count)].  The start token
    [00z03aug2021] with the increment [360mn] and the count 1 gives the one
    timestamp 2021-08-03T00:00, the step being six hours. *)
Theorem C6_time_axis :
  (forall self self',
      _parse_tdef self = Ok self' ->
      exists line p0 p1 start_string increment_string count start step values,
        cur_line self = Ok line
        /\ Py.split (Py.strip line)
           = [p0; p1; "linear"; start_string; increment_string]
        /\ Py.len start_string = 12
        /\ ~ has_char ":" start_string
        /\ List.In (Py.slice_from increment_string (-2)) ["mn"; "hr"; "dy"]
        /\ Py.int p1 = Ok count
        /\ _parse_start_time start_string = Ok start
        /\ _parse_increment_time increment_string = Ok step
        /\ self' = update
                     (set_tdef
                        (Some {| t_count := count; t_start := start;
                                 t_step := step; t_values := values |}))
                     self
        /\ List.length values = Z.to_nat count
        /\ forall i, 0 <= i < count ->
                     nth_error values (Z.to_nat i) = Some (start + i * step))
  /\ (let self := at_line ["tdef 1 linear 00z03aug2021 360mn"] 0 in
      _parse_start_time "00z03aug2021" = Ok t_2021_08_03
      /\ Pd.of_fields 2021 8 3 0 = Ok t_2021_08_03
      /\ _parse_increment_time "360mn" = Ok (6 * Pd.ns_per_hour)
      /\ _parse_tdef self
         = Ok (update
                 (set_tdef
                    (Some {| t_count := 1; t_start := t_2021_08_03;
                             t_step := 6 * Pd.ns_per_hour;
                             t_values := [t_2021_08_03] |}))
                 self)).
Proof.
  split; [| cbv zeta; evaluate].
  intros self self' H. unfold _parse_tdef in H. inv_ok H.
  apply py_assert_Ok, String.eqb_eq in E1. subst a0.
  apply py_assert_Ok, Z.eqb_eq in E2.
  destruct (Py.split (Py.strip a)) as [| p0 [| p1 [| p2 [| p3 [| p4 [| ? ?]]]]]]
    eqn:Eparts; simpl in E2; try lia.
  unfold Py.list_get in E0, E3, E5, E6. simpl in E0, E3, E5, E6.
  injection E0 as ->. injection E3 as <-. injection E5 as <-.
  injection E6 as <-.
  apply time_values_spec in E9. destruct E9 as [Hlen Hnth].
  exists a, p0, p1, p3, p4, a4, a7, a8, a9.
  split; [assumption |]. split; [assumption |].
  split.
  { unfold _parse_start_time in E7. inv_ok E7. apply Z.eqb_eq. assumption. }
  split.
  { intros Hc. apply start_time_colon in Hc. destruct Hc as [e He].
    congruence. }
  split.
  { unfold _parse_increment_time in E8. inv_ok E8; simpl.
    - apply String.eqb_eq in C. auto.
    - apply String.eqb_eq in C0. auto.
    - apply String.eqb_eq in C1. auto. }
  do 3 (split; [assumption |]).
  split; [symmetry; assumption |].
  split; assumption.
Qed.

Lemma C6_time_axis_witness :
  let self := at_line ["tdef 3 linear 12z31dec2020 12hr"] 0 in
  exists self',
    _parse_tdef self = Ok self'
    /\ exists ax,
        tdef (grads_ctl self') = Some ax
        /\ forall i, 0 <= i < 3 ->
                     nth_error (t_values ax) (Z.to_nat i)
                     = Some (t_start ax + i * t_step ax).
Proof.
  intros self.
  destruct (_parse_tdef self) as [self' |] eqn:H;
    [| vm_compute in H; discriminate H].
  exists self'. split; [reflexivity |].
  destruct (proj1 C6_time_axis self self' H)
    as (line & p0 & p1 & ss & inc & count & start & step & values
        & Hl & Hp & _ & _ & _ & Hc & _ & _ & -> & _ & Hnth).
  vm_compute in Hl. injection Hl as <-.
  vm_compute in Hp. injection Hp as <- <- <- <-.
  vm_compute in Hc. injection Hc as <-.
  eexists. split; [reflexivity |]. exact Hnth.
Defined.

(** ** Explicit levels *)

(** The [while] loop reads the [k] lines after the cursor, one value each,
    and appends them in order. *)
Lemma read_levels_spec (float_of_str : string -> option float) (k : nat) :
  forall self levels self' levels',
    read_levels float_of_str k self levels = Ok (self', levels') ->
    exists conts,
      levels' = (levels ++ conts)%list
      /\ List.length conts = k
      /\ cur_no self' = cur_no self + Z.of_nat k
      /\ grads_ctl self' = grads_ctl self
      /\ ctl_file_lines self' = ctl_file_lines self
      /\ ctl_file_path self' = ctl_file_path self
      /\ forall j v,
          nth_error conts j = Some v ->
          exists line,
            Py.list_get (ctl_file_lines self) (cur_no self + 1 + Z.of_nat j)
            = Ok line
            /\ float_of_str line = Some v.
Proof.
  induction k as [| k IH]; intros self levels self' levels' H.
  - simpl in H. injection H as <- <-. exists [].
    rewrite app_nil_r, Z.add_0_r. repeat split; try reflexivity.
    intros [| j] v Hj; discriminate.
  - cbn [read_levels] in H. inv_ok H.
    apply IH in H. destruct H as (conts & -> & Hlen & Hcur & Hg & Hl & Hp & Hn).
    simpl in Hcur, Hg, Hl, Hp, Hn.
    exists (a0 :: conts). cbn [List.length]. rewrite <- app_assoc.
    split; [reflexivity |]. split; [congruence |]. split; [lia |].
    do 3 (split; [assumption |]).
    intros [| j] v Hj; simpl in Hj.
    + injection Hj as <-. exists a. rewrite Z.add_0_r.
      split; [exact E |].
      unfold py_float in E0. destruct (float_of_str a); simpl in E0; congruence.
    + destruct (Hn j v Hj) as (line & Hline & Hv). exists line.
      split; [| assumption].
      rewrite <- Hline. f_equal. lia.
Qed.

(** C7 (amended): a [levels] declaration that is accepted stores the inline
    values followed by the values of the continuation lines, in file order:
    [inline] are the floats of the tokens after the kind token, [conts] the
    floats of the next [k] lines, with [k = count - inline_count] when that
    is positive and 0 otherwise, and the cursor moves by [k].  The stored
    sequence has [max(count, inline_count)] values: [count] of them when no
    more than [count] values stand on the line. *)
Theorem C7_levels_values (float_of_str : string -> option float)
    (self self' : Parser) (dim_name : string) (tokens : list string) :
  _parse_levels_dimension float_of_str self dim_name tokens = Ok self' ->
  exists t1 count inline conts,
    nth_error tokens 1 = Some t1
    /\ Py.int t1 = Ok count
    /\ mapM (py_float float_of_str) (Py.list_from tokens 3) = Ok inline
    /\ let inline_count := Z.of_nat (List.length inline) in
       let k := Z.to_nat (count - inline_count) in
       List.length conts = k
       /\ (forall j v,
              nth_error conts j = Some v ->
              exists line,
                Py.list_get (ctl_file_lines self)
                  (cur_no self + 1 + Z.of_nat j) = Ok line
                /\ float_of_str line = Some v)
       /\ cur_no self' = cur_no self + Z.of_nat k
       /\ grads_ctl self'
          = setattr_dim dim_name (LevelsDim count (inline ++ conts))
              (grads_ctl self)
       /\ Z.of_nat (List.length (inline ++ conts)) = Z.max count inline_count
       /\ (inline_count <= count ->
           Z.of_nat (List.length (inline ++ conts)) = count
           /\ Z.of_nat k = count - inline_count).
Proof.
  intros H. unfold _parse_levels_dimension in H. inv_ok H.
  assert (Hin : mapM (py_float float_of_str) (Py.list_from tokens 3) = Ok a1).
  { destruct (2 <? Z.of_nat (List.length tokens)) eqn:C; [assumption |].
    injection E1 as <-. unfold Py.list_from.
    rewrite skipn_all2; [reflexivity |]. apply Z.ltb_ge in C. lia. }
  apply read_levels_spec in E2.
  destruct E2 as (conts & -> & Hlen & Hcur & Hg & Hl & Hp & Hn).
  apply list_get_nth in E; [| lia].
  exists a, a0, a1, conts. subst self'. simpl.
  split; [assumption |]. split; [assumption |]. split; [assumption |].
  split; [assumption |]. split; [assumption |]. split; [assumption |].
  split; [congruence |].
  rewrite length_app, Hlen. split; lia.
Qed.

Lemma C7_levels_values_witness :
  exists self',
    _parse_levels_dimension decimal_float at_zdef "zdef"
      ["zdef"; "2"; "levels"] = Ok self'
    /\ cur_no self' = 8
    /\ exists values,
        zdef (grads_ctl self') = Some (LevelsDim 2 values)
        /\ List.length values = 2%nat.
Proof.
  destruct (_parse_levels_dimension decimal_float at_zdef "zdef"
              ["zdef"; "2"; "levels"]) as [self' |] eqn:H;
    [| vm_compute in H; discriminate H].
  exists self'. split; [reflexivity |].
  destruct (C7_levels_values _ _ _ _ _ H)
    as (t1 & count & inline & conts & Ht & Hc & Hi & Hlen & _ & Hcur & Hg
        & _ & Hle).
  vm_compute in Ht. injection Ht as <-.
  vm_compute in Hc. injection Hc as <-.
  vm_compute in Hi. injection Hi as <-.
  split; [exact Hcur |].
  exists ([] ++ conts)%list. rewrite Hg. split; [reflexivity |].
  apply Nat2Z.inj. apply Hle. simpl. lia.
Defined.

(** C7 as stated fails when more values stand on the line than declared:
    all three are stored under the count 2, and no line is consumed. *)
Lemma C7_counterexample_surplus_inline :
  exists doc values,
    parse decimal_float new_ctl "post.ctl" ["zdef 2 levels 1000 850 500"]
    = Some (Ok doc)
    /\ zdef doc = Some (LevelsDim 2 values)
    /\ List.length values = 3%nat.
Proof. evaluate. Qed.

(** ** What the handlers leave alone *)

Lemma advances_refl self : advances self self.
Proof. repeat split. lia. Qed.

Lemma advances_set (g : GradsCtl) self : advances self (set_grads_ctl g self).
Proof. repeat split. simpl. lia. Qed.

Lemma advances_trans a b c : advances a b -> advances b c -> advances a c.
Proof.
  intros (P1 & L1 & C1) (P2 & L2 & C2). repeat split; try congruence. lia.
Qed.

Lemma keeps_refl self : keeps self self.
Proof. repeat split. Qed.

Lemma keeps_trans a b c : keeps a b -> keeps b c -> keeps a c.
Proof. intros (S1 & F1 & R1) (S2 & F2 & R2). repeat split; congruence. Qed.

Lemma setattr_dim_keeps (dim_name : string) (d : Dimension) (self : Parser) :
  advances self (update (setattr_dim dim_name d) self)
  /\ keeps self (update (setattr_dim dim_name d) self).
Proof.
  unfold setattr_dim.
  destruct (String.eqb dim_name "xdef"); [| destruct (String.eqb dim_name "ydef");
    [| destruct (String.eqb dim_name "zdef")]];
    (split; [apply advances_set | repeat split]).
Qed.

Lemma apply_options_keeps (l : list string) (g : GradsCtl) :
  let g' := List.fold_left apply_option l g in
  start_time g' = start_time g /\ forecast_time g' = forecast_time g
  /\ record g' = record g.
Proof.
  revert g; induction l as [| o l IH]; intros g; simpl; [auto |].
  destruct (IH (apply_option g o)) as (S & F & R). simpl in S, F, R.
  rewrite S, F, R. unfold apply_option.
  destruct (String.eqb o "big_endian"); [| destruct (String.eqb o "little_endian");
    [| destruct (String.eqb o "yrev")]]; repeat split.
Qed.

Lemma _parse_dset_keeps self self' :
  _parse_dset self = Ok self' -> advances self self' /\ keeps self self'.
Proof.
  unfold _parse_dset. intros H. inv_ok H; subst self';
    (split; [apply advances_set | repeat split]).
Qed.

Lemma _parse_options_keeps self self' :
  _parse_options self = Ok self' -> advances self self' /\ keeps self self'.
Proof.
  unfold _parse_options. intros H. inv_ok H. subst self'.
  split; [apply advances_set |]. unfold keeps. simpl.
  apply (apply_options_keeps _ (set_options _ (grads_ctl self))).
Qed.

Lemma _parse_title_keeps self self' :
  _parse_title self = Ok self' -> advances self self' /\ keeps self self'.
Proof.
  unfold _parse_title. intros H. inv_ok H. subst self'.
  split; [apply advances_set | repeat split].
Qed.

Lemma _parse_undef_keeps fl self self' :
  _parse_undef fl self = Ok self' -> advances self self' /\ keeps self self'.
Proof.
  unfold _parse_undef. intros H. inv_ok H. subst self'.
  split; [apply advances_set | repeat split].
Qed.

Lemma _parse_tdef_keeps self self' :
  _parse_tdef self = Ok self' -> advances self self' /\ keeps self self'.
Proof.
  unfold _parse_tdef. intros H. inv_ok H. subst self'.
  split; [apply advances_set | repeat split].
Qed.

Lemma _parse_dimension_keeps fl self self' :
  _parse_dimension fl self = Ok self' -> advances self self' /\ keeps self self'.
Proof.
  unfold _parse_dimension. intros H. inv_ok H.
  - unfold _parse_linear_dimension in H. inv_ok H. subst self'.
    apply setattr_dim_keeps.
  - unfold _parse_levels_dimension in H.
    apply bind_Ok in H. destruct H as (t1 & _ & H).
    apply bind_Ok in H. destruct H as (count & _ & H).
    apply bind_Ok in H. destruct H as (levels & _ & H).
    apply bind_Ok in H. destruct H as ([mid levels'] & Hr & H).
    injection H as <-.
    apply read_levels_spec in Hr.
    destruct Hr as (conts & _ & _ & Hcur & Hg & Hl & Hp & _).
    destruct (setattr_dim_keeps a0 (LevelsDim count levels') mid)
      as [(P & L & Cu) (S & F & R)].
    split.
    + repeat split; try congruence. lia.
    + repeat split; congruence.
Qed.

Lemma parse_var_lines_spec (l : list Z) :
  forall self var_list self' var_list',
    foldM (fun _ st => parse_var_line st) l (self, var_list)
    = Ok (self', var_list') ->
    advances self self' /\ grads_ctl self' = grads_ctl self.
Proof.
  induction l as [| x l IH]; simpl; intros self var_list self' var_list' H.
  - injection H as <- <-. split; [apply advances_refl | reflexivity].
  - apply bind_Ok in H. destruct H as ([mid vl] & Hm & H).
    apply IH in H. destruct H as [(P & L & C) G].
    unfold parse_var_line in Hm. inv_ok Hm.
    subst mid. simpl in *.
    split; [repeat split; try assumption; lia | assumption].
Qed.

Lemma _parse_variables_spec self self' :
  _parse_variables self = Ok self' ->
  advances self self'
  /\ exists var_list,
      grads_ctl self' = set_vars var_list (grads_ctl self).
Proof.
  unfold _parse_variables. intros H.
  apply bind_Ok in H. destruct H as (line & _ & H).
  apply bind_Ok in H. destruct H as (u & _ & H).
  apply bind_Ok in H. destruct H as (p1 & _ & H).
  apply bind_Ok in H. destruct H as (count & _ & H).
  apply bind_Ok in H. destruct H as ([mid vl] & Hm & H).
  injection H as <-. apply parse_var_lines_spec in Hm.
  destruct Hm as [A G]. split; [exact A |].
  exists vl. simpl. rewrite G. reflexivity.
Qed.

Lemma _generate_records_spec self self' :
  _generate_records self = Ok self' ->
  exists record_list,
    self' = update (set_record record_list) self
    /\ built_from (grads_ctl self) = Ok record_list.
Proof.
  unfold built_from, _generate_records. cbn [grads_ctl]. intros H.
  destruct (tdef (grads_ctl self)) as [td |]; [| discriminate H].
  cbn [of_option bind] in *.
  destruct (foldM _ (t_values td) _) as [r | e]; [| discriminate H].
  injection H as <-. exists (fst r). split; reflexivity.
Qed.

Lemma _parse_vars_advances self self' :
  _parse_vars self = Ok self' ->
  advances self self'
  /\ start_time (grads_ctl self') = start_time (grads_ctl self)
  /\ forecast_time (grads_ctl self') = forecast_time (grads_ctl self).
Proof.
  unfold _parse_vars. intros H.
  apply bind_Ok in H. destruct H as (mid & Hm & H).
  apply _parse_variables_spec in Hm. destruct Hm as [A (vl & G)].
  apply _generate_records_spec in H. destruct H as (rl & -> & _).
  split; [exact A |]. simpl. rewrite G. split; reflexivity.
Qed.

Lemma _parse_ctl_file_name_advances self self' :
  _parse_ctl_file_name self = Ok self' ->
  advances self self' /\ record (grads_ctl self') = record (grads_ctl self).
Proof.
  unfold _parse_ctl_file_name. intros H.
  destruct (start_time (grads_ctl self)), (forecast_time (grads_ctl self));
    inv_ok H; subst self';
    (split; [repeat split; simpl; lia | reflexivity]).
Qed.

(** *** The dispatch table *)

Lemma mapper_get_In fl (key : string) (handler : Parser -> result Parser) :
  mapper_get fl key = Ok handler -> List.In (key, handler) (parser_mapper fl).
Proof.
  unfold mapper_get. intros H.
  destruct (List.find _ (parser_mapper fl)) as [[k h] |] eqn:F; [| discriminate].
  injection H as <-. apply find_some in F. destruct F as [Hin Hk].
  apply String.eqb_eq in Hk. simpl in Hk. subst k. exact Hin.
Qed.

(** Every handler keeps the file and does not move the cursor back. *)
Lemma handler_advances fl key handler self self' :
  List.In (key, handler) (parser_mapper fl) ->
  handler self = Ok self' -> advances self self'.
Proof.
  intros Hin H. simpl in Hin.
  repeat (destruct Hin as [Hin | Hin];
          [injection Hin as <- <- | ]); try contradiction.
  - apply _parse_ctl_file_name_advances in H. tauto.
  - apply _parse_dset_keeps in H. tauto.
  - apply _parse_options_keeps in H. tauto.
  - apply _parse_title_keeps in H. tauto.
  - apply _parse_undef_keeps in H. tauto.
  - apply _parse_dimension_keeps in H. tauto.
  - apply _parse_dimension_keeps in H. tauto.
  - apply _parse_dimension_keeps in H. tauto.
  - apply _parse_tdef_keeps in H. tauto.
  - apply _parse_vars_advances in H. tauto.
Qed.

(** A pass moves the cursor forward by at least one line. *)
Lemma parse_line_advances fl self self' :
  parse_line fl self = Ok self' ->
  ctl_file_path self' = ctl_file_path self
  /\ ctl_file_lines self' = ctl_file_lines self
  /\ cur_no self + 1 <= cur_no self'.
Proof.
  unfold parse_line. intros H.
  apply bind_Ok in H. destruct H as (line & _ & H).
  apply bind_Ok in H. destruct H as (mid & Hm & H).
  injection H as <-. simpl.
  assert (A : advances self mid).
  { destruct (mapper_has fl _); [| injection Hm as <-; apply advances_refl].
    apply bind_Ok in Hm. destruct Hm as (h & Hh & Hm).
    apply mapper_get_In in Hh. eapply handler_advances; eauto. }
  destruct A as (P & L & C). repeat split; try assumption. lia.
Qed.

Lemma passes_advances fl (k : nat) :
  forall self self',
    passes fl k self = Ok self' ->
    ctl_file_path self' = ctl_file_path self
    /\ ctl_file_lines self' = ctl_file_lines self
    /\ cur_no self + Z.of_nat k <= cur_no self'.
Proof.
  induction k as [| k IH]; intros self self' H.
  - injection H as <-. repeat split. simpl. lia.
  - cbn [passes] in H. apply bind_Ok in H. destruct H as (mid & Hm & H).
    apply parse_line_advances in Hm. apply IH in H.
    destruct Hm as (P1 & L1 & C1). destruct H as (P2 & L2 & C2).
    repeat split; try congruence. lia.
Qed.

(** *** The loop of [parse] *)



(** After [k] passes that end on a line of the file, the loop goes on from
    there. *)
Lemma parse_loop_passes fl (k : nat) :
  forall fuel self self',
    passes fl k self = Ok self' ->
    cur_no self' < total_lines self' ->
    (k <= fuel)%nat ->
    parse_loop fl fuel self = parse_loop fl (fuel - k) self'.
Proof.
  induction k as [| k IH]; intros fuel self self' H Hc Hf.
  - injection H as <-. rewrite Nat.sub_0_r. reflexivity.
  - cbn [passes] in H. apply bind_Ok in H. destruct H as (mid & Hm & H).
    destruct fuel as [| fuel]; [lia |]. cbn [parse_loop].
    pose proof (parse_line_advances _ _ _ Hm) as (P1 & L1 & C1).
    pose proof (passes_advances _ _ _ _ H) as (P2 & L2 & C2).
    assert (Hlt : (cur_no self <? total_lines self) = true).
    { apply Z.ltb_lt. unfold total_lines in *. rewrite <- L1, <- L2. lia. }
    rewrite Hlt, Hm. apply IH; [assumption | assumption | lia].
Qed.

(** A pass that raises on a line of the file, reached after [k] passes,
    makes [parse] raise. *)
Lemma parse_raises fl ctl path lines (k : nat) self line e :
  passes fl k (opened ctl path lines) = Ok self ->
  cur_line self = Ok line ->
  parse_line fl self = Raise e ->
  parse fl ctl path lines = Some (Raise e).
Proof.
  intros Hk Hl He.
  pose proof (passes_advances _ _ _ _ Hk) as (P & L & C). simpl in C.
  assert (Hc : cur_no self < total_lines self).
  { unfold cur_line, Py.list_get in Hl. unfold total_lines.
    destruct (Z.ltb_spec (cur_no self) 0); [lia |].
    destruct (Z.ltb_spec (cur_no self)
                (Z.of_nat (List.length (ctl_file_lines self))));
      [assumption |].
    rewrite andb_false_r in Hl. discriminate. }
  assert (Hn : (k < List.length lines)%nat).
  { unfold total_lines in Hc. rewrite L in Hc. simpl in Hc.
    rewrite length_map in Hc. lia. }
  unfold parse.
  rewrite (parse_loop_passes fl k _ _ self Hk Hc) by lia.
  destruct (List.length lines - k)%nat as [| f] eqn:Ef; [lia |].
  cbn [parse_loop]. apply Z.ltb_lt in Hc. rewrite Hc, He. reflexivity.
Qed.

(** ** The dispatcher *)

Lemma find_char_absent (c : ascii) (s : string) :
  ~ has_char c s -> Py.find_char c s = -1.
Proof.
  unfold has_char. induction s as [| d s IH]; simpl; intros H; [reflexivity |].
  destruct (Ascii.eqb_spec d c) as [-> | _]; [tauto |].
  rewrite IH by tauto. reflexivity.
Qed.

Lemma take_append (a b : string) :
  Py.take (String.length a) (String.append a b) = a.
Proof.
  induction a as [| c a IH]; simpl.
  - destruct b; reflexivity.
  - rewrite IH. reflexivity.
Qed.

Lemma length_append (a b : string) :
  String.length (String.append a b) = (String.length a + String.length b)%nat.
Proof. induction a as [| c a IH]; simpl; [reflexivity | rewrite IH; reflexivity]. Qed.

(** [s[0:-1]] is [s] without its last character. *)
Lemma slice_to_minus_one (body : string) (c : ascii) :
  Py.slice_to (String.append body (String c EmptyString)) (-1) = body.
Proof.
  unfold Py.slice_to, Py.slice, Py.clamp, Py.len.
  rewrite length_append. simpl String.length.
  change (-1 <? 0) with true. change (0 <? 0) with false. cbv iota.
  set (n := String.length body).
  replace (Z.to_nat (Z.min (Z.of_nat (n + 1)) 0)) with O by lia.
  replace (Z.to_nat (Z.min (Z.of_nat (n + 1))
                       (Z.max 0 (Z.of_nat (n + 1) + -1)))) with n by lia.
  rewrite Nat.sub_0_r. simpl Py.drop. apply take_append.
Qed.




(** C3, at the line [XDEF 4 linear 0.0 1.0]: the leading token passes the
    lower-cased membership test, the lookup under [XDEF] raises [KeyError]
    and the parse aborts; no handler is invoked.  The same line with the
    keyword in lower case is decoded. *)
Theorem C3_capital_keyword_key_error :
  parse decimal_float new_ctl "post.ctl" ["XDEF 4 linear 0.0 1.0"]
  = Some (Raise (KeyError "XDEF"))
  /\ exists doc,
      parse decimal_float new_ctl "post.ctl" ["xdef 4 linear 0.0 1.0"]
      = Some (Ok doc)
      /\ xdef doc
         = Some (LinearDim 4 0 1 [0%float; 1%float; 2%float; 3%float]).
Proof. evaluate. Qed.

Lemma parse_line_skips fl self line :
  cur_line self = Ok line ->
  mapper_has fl (Py.lower (first_word line)) = false ->
  parse_line fl self = Ok (skipped self).
Proof.
  intros Hl Hm. unfold parse_line. rewrite Hl. cbn [bind]. rewrite Hm.
  reflexivity.
Qed.

(** C10 (amended): on a line with no space the leading token is the line
    without its last character.  The pass skips the line when that token,
    lower-cased, is not a keyword of the table; in particular each bare
    keyword line is skipped, neither dispatched nor rejected. *)
Theorem C10_line_without_space (float_of_str : string -> option float)
    (self : Parser) (line : string) :
  cur_line self = Ok line ->
  ~ has_char " " line ->
  (forall body c,
      line = String.append body (String c EmptyString) ->
      first_word line = body)
  /\ (line = "" -> first_word line = "")
  /\ (mapper_has float_of_str (Py.lower (first_word line)) = false ->
      parse_line float_of_str self = Ok (skipped self))
  /\ (List.In line keywords ->
      parse_line float_of_str self = Ok (skipped self)).
Proof.
  intros Hl Hs. apply find_char_absent in Hs.
  split; [| split; [| split]].
  - intros body c E. unfold first_word. rewrite Hs, E.
    apply slice_to_minus_one.
  - intros ->. reflexivity.
  - intros Hm. apply (parse_line_skips _ _ line); assumption.
  - intros Hin. apply (parse_line_skips _ _ line); [assumption |].
    simpl in Hin.
    repeat (destruct Hin as [<- | Hin]; [reflexivity |]). contradiction.
Qed.

Lemma C10_line_without_space_witness :
  let self := at_line ["vars"] 0 in
  first_word "vars" = "var"
  /\ parse_line decimal_float self = Ok (skipped self).
Proof.
  intros self.
  assert (Hl : cur_line self = Ok "vars") by reflexivity.
  assert (Hs : ~ has_char " " "vars").
  { unfold has_char. simpl. intros [H | [H | [H | [H | []]]]]; discriminate H. }
  destruct (C10_line_without_space decimal_float self "vars" Hl Hs)
    as (Hfw & _ & _ & Hkw).
  split.
  - apply (Hfw "var" "s"%char). reflexivity.
  - apply Hkw. simpl. tauto.
Defined.

(** C10 as stated fails on a line with no space whose truncated token is a
    keyword: [titles] is dispatched to the title handler, which stores [s],
    and [vars1] is dispatched to the vars handler, which rejects it. *)
Lemma C10_counterexample_truncated_keyword :
  ~ has_char " " "titles"
  /\ first_word "titles" = "title"
  /\ (exists doc,
         parse decimal_float new_ctl "post.ctl" ["titles"] = Some (Ok doc)
         /\ title doc = "s")
  /\ ~ has_char " " "vars1"
  /\ parse decimal_float new_ctl "post.ctl" ["vars1"]
     = Some (Raise AssertionError).
Proof.
  split; [| split; [| split; [| split]]].
  - unfold has_char. simpl. intuition discriminate.
  - reflexivity.
  - evaluate.
  - unfold has_char. simpl. intuition discriminate.
  - reflexivity.
Qed.

(** ** When the record index is built *)

Lemma parse_line_dispatch fl self self' :
  parse_line fl self = Ok self' ->
  exists line mid,
    cur_line self = Ok line
    /\ self' = skipped mid
    /\ ((mapper_has fl (Py.lower (first_word line)) = false /\ mid = self)
        \/ exists handler,
            List.In (first_word line, handler) (parser_mapper fl)
            /\ handler self = Ok mid).
Proof.
  unfold parse_line. intros H.
  apply bind_Ok in H. destruct H as (line & Hl & H).
  apply bind_Ok in H. destruct H as (mid & Hm & H).
  injection H as <-. exists line, mid.
  split; [assumption |]. split; [reflexivity |].
  destruct (mapper_has fl _); [right | left; split; congruence].
  apply bind_Ok in Hm. destruct Hm as (h & Hh & Hm).
  apply mapper_get_In in Hh. eauto.
Qed.

Lemma parse_line_handler fl self line key handler :
  cur_line self = Ok line ->
  first_word line = key ->
  mapper_has fl (Py.lower key) = true ->
  mapper_get fl key = Ok handler ->
  forall e, handler self = Raise e -> parse_line fl self = Raise e.
Proof.
  intros Hl Hk Hm Hg e He. unfold parse_line.
  rewrite Hl. cbn [bind]. rewrite Hk, Hm, Hg. cbn [bind]. rewrite He.
  reflexivity.
Qed.

(** The pass over a [vars] line whose declarations are read: what the
    builder does with the axes the lines before have left. *)
Lemma vars_line_axes fl self line mid :
  cur_line self = Ok line ->
  first_word line = "vars" ->
  _parse_variables self = Ok mid ->
  (tdef (grads_ctl self) = None -> parse_line fl self = Raise TypeError)
  /\ (forall td,
         tdef (grads_ctl self) = Some td ->
         t_values td <> [] ->
         zdef (grads_ctl self) = None ->
         Exists (fun x => 0 < v_levels x) (vars (grads_ctl mid)) ->
         parse_line fl self = Raise TypeError)
  /\ (forall td,
         tdef (grads_ctl self) = Some td ->
         t_values td = [] ->
         parse_line fl self = Ok (skipped (update (set_record []) mid))).
Proof.
  intros Hl Hv Hm.
  pose proof (_parse_variables_spec _ _ Hm) as (_ & vl & G).
  assert (R : forall e, _generate_records mid = Raise e ->
                        parse_line fl self = Raise e).
  { intros e He.
    apply (parse_line_handler fl self line "vars" _parse_vars);
      [assumption | assumption | reflexivity | reflexivity |].
    unfold _parse_vars. rewrite Hm. exact He. }
  split; [| split].
  - intros Ht. apply R. unfold _generate_records. rewrite G.
    cbn [tdef set_vars]. rewrite Ht. reflexivity.
  - intros td Ht Hne Hz HE. apply R. unfold _generate_records.
    rewrite G in *. cbn [tdef zdef vars set_vars] in *. rewrite Ht, Hz.
    cbn [of_option bind].
    destruct (t_values td) as [| t ts]; [congruence |].
    cbn [foldM]. unfold time_body at 1.
    rewrite var_loop_no_zdef by assumption. reflexivity.
  - intros td Ht He. unfold parse_line. rewrite Hl. cbn [bind].
    rewrite Hv.
    change (mapper_has fl (Py.lower "vars")) with true. cbv iota.
    change (mapper_get fl "vars") with (Ok _parse_vars). cbn [bind].
    unfold _parse_vars. rewrite Hm. cbn [bind].
    unfold _generate_records. rewrite G. cbn [tdef set_vars].
    rewrite Ht. cbn [of_option bind]. rewrite He. reflexivity.
Qed.

(** C2 (amended): the record index is built in the pass over a [vars]
    line, by the vars handler itself: from the catalogue just read and the
    time and z axes as the lines before have left them.  The pass over any
    other line and the file-name step leave [record] as it is, so a [tdef]
    or [zdef] line after the variables does not reach the record index.
    On a [vars] line whose declarations are read, the pass raises, and
    [parse] with it, when no time axis has been decoded, and when the time
    axis decoded holds at least one time, no z axis has been decoded and a
    variable is declared with [levels > 0]; with an empty time axis the
    pass returns and the record index is empty, z axis or not. *)
Theorem C2_record_built_by_vars_handler (float_of_str : string -> option float)
    (self self' : Parser) :
  (parse_line float_of_str self = Ok self' ->
   exists line,
     cur_line self = Ok line
     /\ (first_word line = "vars" ->
         exists mid,
           _parse_variables self = Ok mid
           /\ tdef (grads_ctl mid) = tdef (grads_ctl self)
           /\ zdef (grads_ctl mid) = zdef (grads_ctl self)
           /\ built_from (grads_ctl mid) = Ok (record (grads_ctl self')))
     /\ (first_word line <> "vars" ->
         record (grads_ctl self') = record (grads_ctl self)))
  /\ (_parse_ctl_file_name self = Ok self' ->
      record (grads_ctl self') = record (grads_ctl self))
  /\ (forall line mid,
         cur_line self = Ok line ->
         first_word line = "vars" ->
         _parse_variables self = Ok mid ->
         let raises :=
           parse_line float_of_str self = Raise TypeError
           /\ forall ctl path lines k,
               passes float_of_str k (opened ctl path lines) = Ok self ->
               parse float_of_str ctl path lines = Some (Raise TypeError) in
         (tdef (grads_ctl self) = None -> raises)
         /\ (forall td,
                tdef (grads_ctl self) = Some td ->
                t_values td <> [] ->
                zdef (grads_ctl self) = None ->
                Exists (fun x => 0 < v_levels x) (vars (grads_ctl mid)) ->
                raises)
         /\ (forall td,
                tdef (grads_ctl self) = Some td ->
                t_values td = [] ->
                parse_line float_of_str self
                = Ok (skipped (update (set_record []) mid)))).
Proof.
  split; [| split;
            [intros H; apply _parse_ctl_file_name_advances in H; tauto |]].
  2: { intros line mid Hl Hv Hm raises.
       destruct (vars_line_axes float_of_str self line mid Hl Hv Hm)
         as (Hnone & Hz & Hempty).
       assert (Lift : parse_line float_of_str self = Raise TypeError ->
                      raises).
       { intros Hr. split; [exact Hr |]. intros ctl path lines k Hk.
         exact (parse_raises _ _ _ _ k self line TypeError Hk Hl Hr). }
       split; [| split].
       - intros Ht. apply Lift. apply Hnone. exact Ht.
       - intros td Ht Hne Hzd HE. apply Lift. apply (Hz td); assumption.
       - exact Hempty. }
  intros H. apply parse_line_dispatch in H.
  destruct H as (line & mid & Hl & -> & Hd).
  exists line. split; [assumption |]. split.
  - intros Hv. rewrite Hv in Hd.
    destruct Hd as [[Hm _] | (handler & Hin & Hh)]; [discriminate Hm |].
    simpl in Hin.
    repeat (destruct Hin as [Hin | Hin]; [discriminate Hin |]).
    destruct Hin as [Hin | []]. injection Hin as <-.
    unfold _parse_vars in Hh. apply bind_Ok in Hh.
    destruct Hh as (mid' & Hm & Hg). exists mid'.
    pose proof (_parse_variables_spec _ _ Hm) as (_ & vl & G).
    apply _generate_records_spec in Hg. destruct Hg as (rl & -> & Hb).
    split; [assumption |]. rewrite G in *. simpl. auto.
  - intros Hv.
    destruct Hd as [[_ ->] | (handler & Hin & Hh)]; [reflexivity |].
    simpl in Hin. simpl.
    repeat (destruct Hin as [Hin | Hin];
            [injection Hin as Hk <-;
             first [ apply _parse_ctl_file_name_advances in Hh
                   | apply _parse_dset_keeps in Hh
                   | apply _parse_options_keeps in Hh
                   | apply _parse_title_keeps in Hh
                   | apply _parse_undef_keeps in Hh
                   | apply _parse_dimension_keeps in Hh
                   | apply _parse_tdef_keeps in Hh
                   | congruence ];
             try (unfold keeps in Hh; tauto) |]).
    contradiction.
Qed.

Lemma C2_record_built_by_vars_handler_witness :
  (exists self',
      parse_line decimal_float at_vars = Ok self'
      /\ cur_no at_vars = 10
      /\ cur_no self' = 13
      /\ built_from (set_vars (vars (grads_ctl self')) (grads_ctl at_vars))
         = Ok (record (grads_ctl self')))
  /\ parse decimal_float new_ctl "post.ctl"
       ["tdef 1 linear 00z03aug2021 360mn"; "vars 1"; "TMP 2 K temperature";
        "endvars"] = Some (Raise TypeError).
Proof.
  split.
  - destruct (parse_line decimal_float at_vars) as [self' |] eqn:H;
      [| vm_compute in H; discriminate H].
    exists self'. split; [reflexivity |].
    destruct (proj1 (C2_record_built_by_vars_handler decimal_float at_vars
                       self') H) as (line & Hl & Hvars & _).
    vm_compute in Hl. injection Hl as <-.
    destruct (Hvars eq_refl) as (mid & Hm & _ & _ & Hb).
    vm_compute in Hm. injection Hm as <-.
    vm_compute in H. injection H as <-.
    split; [vm_compute; reflexivity |]. split; [reflexivity |].
    vm_compute in Hb. vm_compute. exact Hb.
  - destruct (passes decimal_float 1
                (opened new_ctl "post.ctl"
                   ["tdef 1 linear 00z03aug2021 360mn"; "vars 1";
                    "TMP 2 K temperature"; "endvars"]))
      as [self |] eqn:Hk; [| vm_compute in Hk; discriminate Hk].
    pose proof Hk as Hk'. vm_compute in Hk'. injection Hk' as <-.
    match type of Hk with
    | _ = Ok ?s =>
        destruct (_parse_variables s) as [mid |] eqn:Hm;
        [| vm_compute in Hm; discriminate Hm];
        pose proof Hm as Hm'; vm_compute in Hm'; injection Hm' as <-;
        pose proof (proj2 (proj2 (C2_record_built_by_vars_handler
                                    decimal_float s s))
                      "vars 1" _ eq_refl eq_refl Hm) as (_ & Hz & _)
    end.
    cbv zeta in Hz.
    refine (proj2 (Hz _ eq_refl _ eq_refl _) _ _ _ 1%nat Hk).
    + vm_compute. discriminate.
    + constructor. vm_compute. reflexivity.
Defined.

(** C2 as stated fails: with the time axis declared only after the
    variables the parse raises in the vars handler; with a z axis declared
    only after a multi-level variable it raises as well; and a second
    [tdef] after the variables leaves the record index of the first, one
    entry where the final document has two times. *)
Lemma C2_counterexample_axis_after_vars :
  parse decimal_float new_ctl "post.ctl"
    ["vars 1"; "PRES 0 Pa surface pressure"; "endvars";
     "tdef 1 linear 00z03aug2021 360mn"] = Some (Raise TypeError)
  /\ parse decimal_float new_ctl "post.ctl"
       ["tdef 1 linear 00z03aug2021 360mn"; "vars 1"; "TMP 2 K temperature";
        "endvars"; "zdef 2 levels 1000 850"] = Some (Raise TypeError)
  /\ exists doc built,
      parse decimal_float new_ctl "post.ctl"
        ["tdef 1 linear 00z03aug2021 360mn"; "vars 1";
         "PRES 0 Pa surface pressure"; "endvars";
         "tdef 2 linear 00z03aug2021 360mn"] = Some (Ok doc)
      /\ built_from doc = Ok built
      /\ List.length (record doc) = 1%nat
      /\ List.length built = 2%nat.
Proof.
  evaluate.
Qed.

(** ** Rejections *)

Lemma _parse_dimension_rejects fl self line :
  cur_line self = Ok line ->
  nth_error (Py.split (Py.lower line)) 2 <> Some "linear" ->
  nth_error (Py.split (Py.lower line)) 2 <> Some "levels" ->
  exists e, _parse_dimension fl self = Raise e.
Proof.
  intros Hl H1 H2. unfold _parse_dimension. rewrite Hl. cbn [bind].
  destruct (Py.list_get (Py.split (Py.lower line)) 0) as [dim_name | e];
    [| simpl; eauto].
  destruct (Py.list_get (Py.split (Py.lower line)) 2) as [kind | e] eqn:Hk;
    [| simpl; eauto].
  apply list_get_nth in Hk; [| lia].
  change (Z.to_nat 2) with 2%nat in Hk. cbn [bind].
  destruct (String.eqb_spec kind "linear") as [-> | _]; [congruence |].
  destruct (String.eqb_spec kind "levels") as [-> | _]; [congruence |].
  unfold raise_NotImplemented. eauto.
Qed.

Lemma increment_time_unit (increment_string : string) :
  ~ List.In (Py.slice_from increment_string (-2)) ["mn"; "hr"; "dy"] ->
  exists e, _parse_increment_time increment_string = Raise e.
Proof.
  intros H. unfold _parse_increment_time.
  destruct (Py.int _) as [vv | e]; [| simpl; eauto]. cbn [bind].
  cbn [List.In] in H.
  destruct (String.eqb_spec (Py.slice_from increment_string (-2)) "mn")
    as [E | _]; [symmetry in E; tauto |].
  destruct (String.eqb_spec (Py.slice_from increment_string (-2)) "hr")
    as [E | _]; [symmetry in E; tauto |].
  destruct (String.eqb_spec (Py.slice_from increment_string (-2)) "dy")
    as [E | _]; [symmetry in E; tauto |].
  unfold raise_NotImplemented. eauto.
Qed.

(** [_parse_tdef] raises as soon as one of its steps does. *)
Lemma _parse_tdef_rejects self line :
  cur_line self = Ok line ->
  (forall start_string,
      nth_error (Py.split (Py.strip line)) 3 = Some start_string ->
      forall increment_string,
        nth_error (Py.split (Py.strip line)) 4 = Some increment_string ->
        (exists e, _parse_start_time start_string = Raise e)
        \/ (exists e, _parse_increment_time increment_string = Raise e)) ->
  exists e, _parse_tdef self = Raise e.
Proof.
  intros Hl Hbad.
  destruct (_parse_tdef self) as [self' | e] eqn:H; [| eauto].
  exfalso. unfold _parse_tdef in H. rewrite Hl in H. cbn [bind] in H.
  inv_ok H.
  apply list_get_nth in E4; [| lia]. apply list_get_nth in E5; [| lia].
  destruct (Hbad _ E4 _ E5) as [[e He] | [e He]]; congruence.
Qed.

(** C8: when the passes of [parse] reach a line of the file that is
    - a dimension declaration ([xdef], [ydef] or [zdef]) whose third token
      is neither [linear] nor [levels], or
    - a [tdef] whose start token holds a colon, wherever it stands, or
    - a [tdef] whose increment ends in a unit code other than [mn], [hr]
      and [dy],
    [parse] raises: it returns no document. *)
Theorem C8_rejections (float_of_str : string -> option float)
    (ctl : GradsCtl) (path : string) (lines : list string) (k : nat)
    (self : Parser) (line : string) :
  passes float_of_str k (opened ctl path lines) = Ok self ->
  cur_line self = Ok line ->
  (List.In (first_word line) ["xdef"; "ydef"; "zdef"]
   /\ nth_error (Py.split (Py.lower line)) 2 <> Some "linear"
   /\ nth_error (Py.split (Py.lower line)) 2 <> Some "levels")
  \/ (first_word line = "tdef"
      /\ exists start_string,
          nth_error (Py.split (Py.strip line)) 3 = Some start_string
          /\ has_char ":" start_string)
  \/ (first_word line = "tdef"
      /\ exists increment_string,
          nth_error (Py.split (Py.strip line)) 4 = Some increment_string
          /\ ~ List.In (Py.slice_from increment_string (-2))
                 ["mn"; "hr"; "dy"]) ->
  exists e, parse float_of_str ctl path lines = Some (Raise e).
Proof.
  intros Hk Hl Hbad.
  enough (exists e, parse_line float_of_str self = Raise e) as [e He].
  { exists e. eapply parse_raises; eauto. }
  destruct Hbad as [(Hfw & H1 & H2) | [(Hfw & s & Hs & Hc) | (Hfw & s & Hs & Hu)]].
  - destruct (_parse_dimension_rejects float_of_str self line Hl H1 H2)
      as [e He].
    exists e. simpl in Hfw.
    destruct Hfw as [Hfw | [Hfw | [Hfw | []]]];
      (eapply parse_line_handler;
       [exact Hl | symmetry; exact Hfw | reflexivity | reflexivity | exact He]).
  - destruct (_parse_tdef_rejects self line Hl) as [e He].
    { intros s' Hs' inc _. left. rewrite Hs in Hs'. injection Hs' as <-.
      apply start_time_colon. assumption. }
    exists e.
    eapply parse_line_handler;
      [exact Hl | exact Hfw | reflexivity | reflexivity | exact He].
  - destruct (_parse_tdef_rejects self line Hl) as [e He].
    { intros s' _ inc Hinc. right. rewrite Hs in Hinc. injection Hinc as <-.
      apply increment_time_unit. assumption. }
    exists e.
    eapply parse_line_handler;
      [exact Hl | exact Hfw | reflexivity | reflexivity | exact He].
Qed.

Lemma C8_rejections_witness :
  (exists e, parse decimal_float new_ctl "post.ctl" gaussian_lines
             = Some (Raise e))
  /\ (exists e, parse decimal_float new_ctl "post.ctl" colon_lines
                = Some (Raise e))
  /\ (exists e, parse decimal_float new_ctl "post.ctl" monthly_lines
                = Some (Raise e)).
Proof.
  split; [| split].
  - destruct (passes decimal_float 2 (opened new_ctl "post.ctl" gaussian_lines))
      as [self |] eqn:Hk; [| vm_compute in Hk; discriminate Hk].
    apply (C8_rejections decimal_float new_ctl "post.ctl" gaussian_lines 2
             self "ydef 2 gausr40 1" Hk).
    + vm_compute in Hk. injection Hk as <-. reflexivity.
    + left. split; [simpl; tauto |]. split; discriminate.
  - apply (C8_rejections decimal_float new_ctl "post.ctl" colon_lines 0
             (opened new_ctl "post.ctl" colon_lines)
             "tdef 2 linear 00:00z03aug2021 360mn" eq_refl eq_refl).
    right. left. split; [reflexivity |].
    exists "00:00z03aug2021". split; [reflexivity |].
    unfold has_char. simpl. tauto.
  - apply (C8_rejections decimal_float new_ctl "post.ctl" monthly_lines 0
             (opened new_ctl "post.ctl" monthly_lines)
             "tdef 2 linear 00z03aug2021 1mo" eq_refl eq_refl).
    right. right. split; [reflexivity |].
    exists "1mo". split; [reflexivity |].
    simpl. intros [H | [H | [H | []]]]; discriminate H.
Defined.

(** ** The file-name heuristic *)

Lemma prefix_append (p s : string) :
  String.prefix p s = true -> exists r, s = String.append p r.
Proof.
  revert s; induction p as [| a p IH]; intros s H.
  - exists s. reflexivity.
  - destruct s as [| b s]; [discriminate H |]. simpl in H.
    destruct (ascii_dec a b) as [-> | _]; [| discriminate H].
    apply IH in H. destruct H as [r ->]. exists r. reflexivity.
Qed.

(** Both prefixes hold an underscore, so [index("_")] finds one. *)
Lemma has_prefix_underscore (ctl_file_name : string) :
  has_prefix ctl_file_name = true ->
  exists file_name, after_underscore ctl_file_name = Ok file_name.
Proof.
  unfold has_prefix, Py.startswith. intros H.
  apply orb_true_iff in H.
  destruct H as [H | H]; apply prefix_append in H; destruct H as [r ->];
    unfold after_underscore; simpl Py.find_char; simpl; eauto.
Qed.

Lemma _parse_ctl_file_name_unknown (self : Parser) :
  known_convention (Path.name (ctl_file_path self)) = false ->
  _parse_ctl_file_name self = Ok self.
Proof.
  unfold known_convention, _parse_ctl_file_name. intros H.
  destruct (start_time (grads_ctl self)); [reflexivity |].
  destruct (forecast_time (grads_ctl self)); [reflexivity |].
  destruct (has_prefix (Path.name (ctl_file_path self))) eqn:Hp;
    [| reflexivity].
  destruct (has_prefix_underscore _ Hp) as [file_name Hf].
  rewrite Hf in *. cbn [bind]. simpl in H.
  apply orb_false_iff in H. destruct H as [-> ->]. reflexivity.
Qed.

Lemma _parse_ctl_file_name_gate (self : Parser) :
  start_time (grads_ctl self) <> None
  \/ forecast_time (grads_ctl self) <> None ->
  _parse_ctl_file_name self = Ok self.
Proof.
  unfold _parse_ctl_file_name. intros H.
  destruct (start_time (grads_ctl self)); [reflexivity |].
  destruct (forecast_time (grads_ctl self)); [reflexivity |].
  destruct H as [H | H]; congruence.
Qed.

(** With a file name of no known convention, no pass touches [start_time]
    and [forecast_time]. *)
Lemma parse_line_times fl self self' :
  known_convention (Path.name (ctl_file_path self)) = false ->
  parse_line fl self = Ok self' ->
  start_time (grads_ctl self') = start_time (grads_ctl self)
  /\ forecast_time (grads_ctl self') = forecast_time (grads_ctl self).
Proof.
  intros Hn H. apply parse_line_dispatch in H.
  destruct H as (line & mid & _ & -> & Hd). simpl.
  destruct Hd as [[_ ->] | (handler & Hin & Hh)]; [split; reflexivity |].
  simpl in Hin.
  repeat (destruct Hin as [Hin | Hin];
          [injection Hin as _ <-;
           first [ rewrite _parse_ctl_file_name_unknown in Hh by assumption;
                   injection Hh as <-; split; reflexivity
                 | apply _parse_dset_keeps in Hh
                 | apply _parse_options_keeps in Hh
                 | apply _parse_title_keeps in Hh
                 | apply _parse_undef_keeps in Hh
                 | apply _parse_dimension_keeps in Hh
                 | apply _parse_tdef_keeps in Hh
                 | apply _parse_vars_advances in Hh ];
           try (unfold keeps in Hh; tauto) |]).
  contradiction.
Qed.

Lemma parse_loop_times fl (fuel : nat) :
  forall self self',
    known_convention (Path.name (ctl_file_path self)) = false ->
    parse_loop fl fuel self = Some (Ok self') ->
    ctl_file_path self' = ctl_file_path self
    /\ start_time (grads_ctl self') = start_time (grads_ctl self)
    /\ forecast_time (grads_ctl self') = forecast_time (grads_ctl self).
Proof.
  induction fuel as [| fuel IH]; intros self self' Hn H; simpl in H.
  - destruct (cur_no self <? total_lines self); [discriminate H |].
    injection H as <-. repeat split.
  - destruct (cur_no self <? total_lines self).
    + destruct (parse_line fl self) as [mid | e] eqn:Hm; [| discriminate H].
      pose proof (parse_line_advances _ _ _ Hm) as (P & _ & _).
      pose proof (parse_line_times _ _ _ Hn Hm) as (S & F).
      apply IH in H; [| rewrite P; assumption].
      destruct H as (P' & S' & F'). repeat split; congruence.
    + injection H as <-. repeat split.
Qed.

(** C9: when the base name of the descriptor follows none of the known
    conventions, the file-name step returns the parser as it is and does
    not raise; so does it whenever [start_time] or [forecast_time] is
    already set, whatever the name.  For such a name [parse] returns
    normally whenever the pass over the lines does, with the document that
    pass has built, and the two fields of the returned document are those
    the parser started with: unset for a new document. *)
Theorem C9_unknown_file_name :
  (forall self,
      known_convention (Path.name (ctl_file_path self)) = false ->
      _parse_ctl_file_name self = Ok self)
  /\ (forall self,
         start_time (grads_ctl self) <> None
         \/ forecast_time (grads_ctl self) <> None ->
         _parse_ctl_file_name self = Ok self)
  /\ (forall float_of_str ctl path lines,
         known_convention (Path.name path) = false ->
         (forall self,
             parse_loop float_of_str (List.length lines)
               (opened ctl path lines) = Some (Ok self) ->
             parse float_of_str ctl path lines = Some (Ok (grads_ctl self)))
         /\ (forall doc,
                parse float_of_str ctl path lines = Some (Ok doc) ->
                start_time doc = start_time ctl
                /\ forecast_time doc = forecast_time ctl)).
Proof.
  split; [exact _parse_ctl_file_name_unknown |].
  split; [exact _parse_ctl_file_name_gate |].
  intros fl ctl path lines Hn.
  assert (Hloop : forall self,
             parse_loop fl (List.length lines) (opened ctl path lines)
             = Some (Ok self) ->
             parse fl ctl path lines = Some (Ok (grads_ctl self))
             /\ start_time (grads_ctl self) = start_time ctl
             /\ forecast_time (grads_ctl self) = forecast_time ctl).
  { intros self H. unfold parse. rewrite H.
    apply parse_loop_times in H; [| exact Hn]. simpl in H.
    destruct H as (P & S & F).
    rewrite _parse_ctl_file_name_unknown by (rewrite P; exact Hn).
    auto. }
  split.
  - intros self H. apply Hloop. assumption.
  - intros doc H. unfold parse in H.
    destruct (parse_loop fl (List.length lines) (opened ctl path lines))
      as [[self | e] |] eqn:Hl; try discriminate H.
    destruct (Hloop self eq_refl) as (Hp & S & F).
    unfold parse in Hp. rewrite Hl in Hp. rewrite Hp in H.
    injection H as <-. auto.
Qed.

Lemma C9_unknown_file_name_witness :
  known_convention (Path.name "/data/post.ctl_latest") = false
  /\ exists doc,
      parse decimal_float new_ctl "/data/post.ctl_latest" sample_lines
      = Some (Ok doc)
      /\ start_time doc = None
      /\ forecast_time doc = None.
Proof.
  assert (Hn : known_convention (Path.name "/data/post.ctl_latest") = false)
    by reflexivity.
  split; [exact Hn |].
  destruct C9_unknown_file_name as (_ & _ & Hp).
  destruct (Hp decimal_float new_ctl "/data/post.ctl_latest" sample_lines Hn)
    as [_ Hdoc].
  destruct (parse decimal_float new_ctl "/data/post.ctl_latest" sample_lines)
    as [[doc | e] |] eqn:H; try (vm_compute in H; discriminate H).
  exists doc. split; [reflexivity |]. exact (Hdoc doc eq_refl).
Defined.

(** * Further properties of the code *)

(** ** The loop of [parse] ends *)


(** ** A keyword written with a capital *)



(** ** The start time *)



(** ** Linear axes *)



(** ** The options line *)







(** ** The scalar handlers *)



(** ** The catalogue of variables *)




(** ** Lines without a keyword *)





(** ** The file-name step *)



(** ** The leading token *)



Lemma take_take (s : string) (n m : nat) :
  (n <= m)%nat -> Py.take n (Py.take m s) = Py.take n s.
Proof.
  revert n m; induction s as [| d s IH]; intros n m H.
  - destruct n, m; reflexivity.
  - destruct n as [| n]; [destruct m; reflexivity |].
    destruct m as [| m]; [lia |]. simpl. rewrite IH by lia. reflexivity.
Qed.







(** ** The names under which axes are stored *)







Lemma setattr_dim_axis (key : string) (d : Dimension) (g : GradsCtl) :
  List.In key ["xdef"; "ydef"; "zdef"] ->
  attrs (setattr_dim key d g) = attrs g
  /\ (key = "xdef" -> xdef (setattr_dim key d g) = Some d
                      /\ ydef (setattr_dim key d g) = ydef g
                      /\ zdef (setattr_dim key d g) = zdef g)
  /\ (key = "ydef" -> ydef (setattr_dim key d g) = Some d
                      /\ xdef (setattr_dim key d g) = xdef g
                      /\ zdef (setattr_dim key d g) = zdef g)
  /\ (key = "zdef" -> zdef (setattr_dim key d g) = Some d
                      /\ xdef (setattr_dim key d g) = xdef g
                      /\ ydef (setattr_dim key d g) = ydef g).
Proof.
  intros H. simpl in H.
  destruct H as [<- | [<- | [<- | []]]];
    (split; [reflexivity |]);
    repeat split; try discriminate; reflexivity.
Qed.



(** ** The target of [dset] *)








(** ** The shape of a [tdef] line *)



(** ** A z axis shorter than a variable *)







(** ** The two conventions of the file name *)


Lemma drop_append (a b : string) :
  Py.drop (String.length a) (String.append a b) = b.
Proof.
  induction a as [| c a IH]; simpl; [destruct b; reflexivity | exact IH].
Qed.




